(** * elabformd: the Form D retrieval-and-enrichment pipeline of [main.py]

    A shallow embedding of [fetch_sec_filings], [clean_up], [add_and_edit]
    and the three detail-page extractors, with the parts of Python's [str],
    of [requests] and of BeautifulSoup that they call.

    Conventions.
    - A Python [str] is a [string]; the characters are the code points below
      256, which is all the whitespace test of [str.strip] needs here.
    - A Python [dict] with string values is a [gmap string string].
    - An exception is a value of [exn]; code that can raise returns [res].
    - The network is a parameter of the functions that use it ([world]), and
      every call of [requests.get], [st.error] and [st.write] is recorded in
      a trace.
    - A page element is a node of the parsed tree together with its path
      from the root; [find], [find_all], [find_next], [find_next_sibling],
      [parent], [string] and [get_text] are those of BeautifulSoup 4, and
      [raise_for_status] and [json] those of requests (2.27 or later, where
      a body that is not JSON raises a [RequestException]).
    - The body of a search response is typed as the search service sends
      it: lists of strings and strings, every key optional. *)

From Stdlib Require Import String Ascii List ZArith Lia Bool DecimalString.
From stdpp Require Import base option list gmap strings fin_maps.

Open Scope string_scope.
Open Scope list_scope.

(** ** Python strings *)

Module PyStr.

(** [str.isspace] on one character, for code points below 256. *)
Definition is_space (c : ascii) : bool :=
  let n := nat_of_ascii c in
  (((9 <=? n) && (n <=? 13)) || ((28 <=? n) && (n <=? 32))
   || (n =? 133) || (n =? 160))%nat.

(** [s.lstrip(chars)] with the set of characters given as a test. *)
Fixpoint lstrip_by (p : ascii -> bool) (s : string) : string :=
  match s with
  | EmptyString => EmptyString
  | String c s' => if p c then lstrip_by p s' else s
  end.

Fixpoint rev_acc (s acc : string) : string :=
  match s with
  | EmptyString => acc
  | String c s' => rev_acc s' (String c acc)
  end.

Definition rev (s : string) : string := rev_acc s EmptyString.

Definition rstrip_by (p : ascii -> bool) (s : string) : string :=
  rev (lstrip_by p (rev s)).

(** [s.strip()] *)
Definition strip (s : string) : string :=
  rstrip_by is_space (lstrip_by is_space s).

(** [s.lstrip('0')] *)
Definition lstrip_zeros (s : string) : string :=
  lstrip_by (fun c => Ascii.eqb c "0"%char) s.

(** [s.replace('-', '')] *)
Fixpoint remove_hyphens (s : string) : string :=
  match s with
  | EmptyString => EmptyString
  | String c s' =>
      if Ascii.eqb c "-"%char then remove_hyphens s'
      else String c (remove_hyphens s')
  end.

(** [sep.join(l)] *)
Fixpoint join (sep : string) (l : list string) : string :=
  match l with
  | [] => ""
  | [x] => x
  | x :: l' => x ++ sep ++ join sep l'
  end.

(** Truth value of a [str]: the empty string is false. *)
Definition truthy (s : string) : bool :=
  match s with EmptyString => false | _ => true end.

(** [str(n)] for a non-negative integer. *)
Definition of_N (n : N) : string := NilZero.string_of_uint (N.to_uint n).

End PyStr.

(** ** Exceptions and results *)

(** The exceptions of [requests], all subclasses of
    [requests.RequestException]; each carries its message, [str(e)]. *)
Inductive request_exception : Type :=
| ConnectionError (msg : string)   (* no connection, timeout, ... *)
| HTTPError (msg : string)         (* raised by [Response.raise_for_status] *)
| JSONDecodeError (msg : string).  (* raised by [Response.json] *)

Definition exn_str (e : request_exception) : string :=
  match e with
  | ConnectionError m | HTTPError m | JSONDecodeError m => m
  end.

Inductive exn : Type :=
| RequestException (e : request_exception)
| AttributeError       (* an attribute of [None] *)
| IndexError           (* list index out of range *)
| ValueError           (* [list.index]: not in list *)
| KeyError             (* [d[k]]: no such key *)
| UnboundLocalError.   (* a local variable read before any assignment *)

Inductive res (A : Type) : Type :=
| Ok (a : A)
| Raise (e : exn).
Arguments Ok {A} a.
Arguments Raise {A} e.

#[global] Instance res_ret : MRet res := fun A a => Ok a.

#[global] Instance res_bind : MBind res := fun A B k r =>
  match r with
  | Ok a => k a
  | Raise e => Raise e
  end.

Definition is_Ok {A} (r : res A) : bool :=
  match r with Ok _ => true | Raise _ => false end.

(** ** BeautifulSoup: the parsed page *)

Module Soup.

(** The string classes that matter here: [get_text] keeps the plain
    [NavigableString]s and skips the other ones, [Tag.string] and [==]
    do not look at the class. *)
Inductive str_kind : Type := NavigableString | Comment.

(** An attribute value is a [str], or a list of [str] for a multi-valued
    attribute such as [class]. *)
Inductive attr_value : Type :=
| AStr (s : string)
| AList (l : list string).

#[global] Instance attr_value_eq_dec : EqDecision attr_value.
Proof. solve_decision. Defined.

#[warnings="-register-all"]
Inductive node : Type :=
| Str (k : str_kind) (s : string)
| Tag (name : string) (attrs : gmap string attr_value) (contents : list node).

(** The [BeautifulSoup] object is itself a tag, named [[document]]. *)
Definition soup (contents : list node) : node := Tag "[document]" ∅ contents.

(** A page element is a node together with its position in the tree: the
    child indices from the [BeautifulSoup] object down to it.  Two
    elements are the same Python object iff their paths are equal. *)
Definition path : Type := list nat.
Definition elem : Type := path * node.

Definition contents_of (n : node) : list node :=
  match n with
  | Str _ _ => []
  | Tag _ _ cs => cs
  end.

(** [n.descendants], in document order, for the node [n] at path [p]. *)
Fixpoint descendants (p : path) (n : node) : list elem :=
  match n with
  | Str _ _ => []
  | Tag _ _ cs =>
      (fix go (i : nat) (cs : list node) : list elem :=
         match cs with
         | [] => []
         | c :: cs' => (p ++ [i], c) :: descendants (p ++ [i]) c ++ go (S i) cs'
         end) 0%nat cs
  end.

Fixpoint descendants_from (p : path) (i : nat) (cs : list node) : list elem :=
  match cs with
  | [] => []
  | c :: cs' =>
      (p ++ [i], c) :: descendants (p ++ [i]) c ++ descendants_from p (S i) cs'
  end.

(** The node at the end of a path. *)
Fixpoint at_path (n : node) (p : path) : option node :=
  match p with
  | [] => Some n
  | i :: p' =>
      match contents_of n !! i with
      | Some c => at_path c p'
      | None => None
      end
  end.

(** [e.parent]: [None] for the [BeautifulSoup] object. *)
Definition parent (root : node) (e : elem) : option elem :=
  match fst e with
  | [] => None
  | _ :: _ =>
      let q := removelast (fst e) in
      match at_path root q with
      | Some m => Some (q, m)
      | None => None
      end
  end.

(** [e.next_elements]: everything after [e] in document order, its own
    descendants first. *)
Fixpoint after (p : path) (l : list elem) : list elem :=
  match l with
  | [] => []
  | e :: l' => if decide (fst e = p) then l' else after p l'
  end.

Definition next_elements (root : node) (e : elem) : list elem :=
  after (fst e) (descendants [] root).

(** [e.next_siblings] *)
Definition next_siblings (root : node) (e : elem) : list elem :=
  match fst e with
  | [] => []
  | _ :: _ =>
      let q := removelast (fst e) in
      let i := List.last (fst e) 0%nat in
      match at_path root q with
      | Some m =>
          imap (fun j c => (q ++ [S i + j]%nat, c)) (drop (S i) (contents_of m))
      | None => []
      end
  end.

(** [tag.string] *)
Fixpoint node_string (n : node) : option string :=
  match n with
  | Str _ s => Some s
  | Tag _ _ [c] => node_string c
  | Tag _ _ _ => None
  end.

(** The strings [get_text] collects, in document order. *)
Fixpoint text_strings (n : node) : list string :=
  match n with
  | Str NavigableString s => [s]
  | Str Comment _ => []
  | Tag _ _ cs => flat_map text_strings cs
  end.

(** [tag.text], that is [tag.get_text()] *)
Definition text (n : node) : string := PyStr.join "" (text_strings n).

(** [tag.get_text(strip=True)]: every string is stripped and the empty
    ones are dropped. *)
Definition get_text_strip (n : node) : string :=
  PyStr.join ""
    (List.filter PyStr.truthy (List.map PyStr.strip (text_strings n))).

(** [Tag.__eq__]: same name, same attributes, same contents. *)
Fixpoint node_eqb (a b : node) : bool :=
  match a, b with
  | Str _ s, Str _ t => String.eqb s t
  | Tag na aa ca, Tag nb ab cb =>
      String.eqb na nb && bool_decide (aa = ab)
      && (fix all2 (l : list node) (r : list node) : bool :=
            match l, r with
            | [], [] => true
            | x :: l', y :: r' => node_eqb x y && all2 l' r'
            | _, _ => false
            end) ca cb
  | _, _ => false
  end.

(** *** Searching: [SoupStrainer] *)

(** [SoupStrainer._matches] of an attribute value against a [str]. *)
Definition matches_attr (v : option attr_value) (against : string) : bool :=
  match v with
  | None => negb (PyStr.truthy against)
  | Some (AStr s) => String.eqb s against
  | Some (AList l) =>
      existsb (fun item => String.eqb item against) l
      || String.eqb (PyStr.join " " l) against
  end.

Record strainer : Type := {
  s_name : string;
  s_attrs : list (string * string);
  s_string : option string
}.

Definition matches_string (n : node) (against : string) : bool :=
  match node_string n with
  | None => negb (PyStr.truthy against)
  | Some s => String.eqb s against
  end.

(** [SoupStrainer.search_tag]: the name, then every attribute, then the
    [string] argument when one is given and is not empty. *)
Definition search_tag (st : strainer) (n : node) : bool :=
  match n with
  | Str _ _ => false
  | Tag name attrs _ =>
      String.eqb name (s_name st)
      && forallb (fun kv => matches_attr (attrs !! fst kv) (snd kv)) (s_attrs st)
      && match s_string st with
         | Some s => if PyStr.truthy s then matches_string n s else true
         | None => true
         end
  end.

Definition by_name (name : string) : strainer :=
  {| s_name := name; s_attrs := []; s_string := None |}.

Definition select (st : strainer) (l : list elem) : list elem :=
  List.filter (fun e => search_tag st (snd e)) l.

(** [e.find_all(...)] *)
Definition find_all (st : strainer) (e : elem) : list elem :=
  select st (descendants (fst e) (snd e)).

(** [e.find(...)] *)
Definition find (st : strainer) (e : elem) : option elem :=
  head (find_all st e).

(** [e.find_next(...)] *)
Definition find_next (root : node) (st : strainer) (e : elem) : option elem :=
  head (select st (next_elements root e)).

(** [e.find_next_sibling(...)] *)
Definition find_next_sibling (root : node) (st : strainer) (e : elem)
  : option elem :=
  head (select st (next_siblings root e)).

(** [l.index(x)] with [==] on tags; [None] stands for [ValueError]. *)
Fixpoint index_of (x : node) (l : list elem) : option nat :=
  match l with
  | [] => None
  | e :: l' =>
      if node_eqb (snd e) x then Some 0%nat
      else option_map S (index_of x l')
  end.

End Soup.

(** [o.attr...] where [o] may be [None]. *)
Definition not_None {A} (o : option A) : res A :=
  match o with
  | Some a => Ok a
  | None => Raise AttributeError
  end.

(** ** The detail-page extractors *)

Module Extract.
Import Soup.

Section Page.
(** The [BeautifulSoup] object built from one detail page. *)
Variable page : node.

Definition doc : elem := ([], page).

(** [l[1:3]] *)
Definition slice_1_3 {A} (l : list A) : list A := take 2 (drop 1 l).

Definition related_persons_tables : strainer :=
  {| s_name := "table"; s_attrs := [("summary", "Related Persons")];
     s_string := None |}.

(** The body of the inner loop: one row, appended to [related_persons]
    when it has cells. *)
Definition add_row (related_persons : list string) (row : elem)
  : list string :=
  let cols := find_all (by_name "td") row in
  match cols with
  | [] => related_persons
  | _ :: _ =>
      let name :=
        PyStr.join " "
          (List.map (fun col => get_text_strip (snd col)) (List.rev cols)) in
      related_persons ++ [name]
  end.

Definition add_table (related_persons : list string) (table : elem)
  : list string :=
  let rows := slice_1_3 (find_all (by_name "tr") table) in
  fold_left add_row rows related_persons.

Definition extract_related_persons : list string :=
  let tables := find_all related_persons_tables doc in
  fold_left add_table tables [].

Definition phone_header : strainer :=
  {| s_name := "th"; s_attrs := [];
     s_string := Some "Phone Number of Issuer" |}.

(** [l[-1]] *)
Definition last_item {A} (l : list A) : res A :=
  match last l with
  | Some a => Ok a
  | None => Raise IndexError
  end.

Definition extract_phone_number : res string :=
  match find phone_header doc with
  | Some section =>
      section_parent ← not_None (parent page section);
      row ← not_None (parent page section_parent);
      let tds := find_all (by_name "td") row in
      match index_of (snd section) (find_all (by_name "th") row) with
      | None => Raise ValueError
      | Some index =>
          if (index <? length tds)%nat then
            match tds !! index with
            | Some td => Ok (get_text_strip (snd td))
            | None => Raise IndexError
            end
          else
            td ← last_item tds;
            Ok (get_text_strip (snd td))
      end
  | None => Ok "Not Found"
  end.

Definition offering_label : strainer :=
  {| s_name := "td"; s_attrs := [];
     s_string := Some "Total Offering Amount" |}.

Definition sold_label : strainer :=
  {| s_name := "td"; s_attrs := [];
     s_string := Some "Total Amount Sold" |}.

Definition checkbox_marker : strainer :=
  {| s_name := "span"; s_attrs := [("class", "FormData")];
     s_string := None |}.

(** Lines 179-185: the value of the local variable
    [total_offering_amount] after the [if]; [None] when no branch has
    assigned it. *)
Definition offering_amount_variable (offering_section : elem)
  : res (option string) :=
  next_td ← not_None (find_next page (by_name "td") offering_section);
  if negb (PyStr.truthy (get_text_strip (snd next_td))) then
    label ← not_None (find offering_label doc);
    offering_amount_td ←
      not_None (find_next_sibling page (by_name "td") label);
    match find_next page checkbox_marker offering_amount_td with
    | Some x_in_checkbox =>
        if String.eqb (PyStr.strip (text (snd x_in_checkbox))) "X"
        then Ok (Some "Indefinite")
        else Ok None
    | None => Ok None
    end
  else
    next_td' ← not_None (find_next page (by_name "td") offering_section);
    Ok (Some (get_text_strip (snd next_td'))).

(** Reading a local variable. *)
Definition read_local {A} (v : option A) : res A :=
  match v with
  | Some a => Ok a
  | None => Raise UnboundLocalError
  end.

Definition extract_offering_amounts : res (string * string) :=
  let offering_section := find offering_label doc in
  let sold_section := find sold_label doc in
  match offering_section, sold_section with
  | Some offering_section, Some sold_section =>
      total_offering_amount_var ← offering_amount_variable offering_section;
      sold_td ← not_None (find_next page (by_name "td") sold_section);
      let total_sold_amount := get_text_strip (snd sold_td) in
      total_offering_amount ← read_local total_offering_amount_var;
      Ok (total_offering_amount, total_sold_amount)
  | _, _ => Ok ("Not Found", "Not Found")
  end.

End Page.
End Extract.

(** ** The outside world: the network and the user interface *)

Module Effects.

(** What the program does to the outside, in order.  Every request is
    sent with the fixed [HEADERS]. *)
Inductive event : Type :=
| EvGet (url : string) (params : list (string * string))  (* requests.get *)
| EvError (msg : string)                                  (* st.error *)
| EvWrite (msg : string)                                  (* st.write of a text *)
| EvWriteTable (rows : list (gmap string string)).        (* st.write of the table *)

Definition trace : Type := list event.

(** A computation that may raise and that extends the trace. *)
Record M (A : Type) : Type := MkM { run : trace -> res A * trace }.
Arguments MkM {A} run.
Arguments run {A} m t.

#[global] Instance M_ret : MRet M := fun A a => MkM (fun t => (Ok a, t)).

#[global] Instance M_bind : MBind M := fun A B k m =>
  MkM (fun t =>
         match run m t with
         | (Ok a, t') => run (k a) t'
         | (Raise e, t') => (Raise e, t')
         end).

Definition lift {A} (r : res A) : M A := MkM (fun t => (r, t)).

Definition emit (ev : event) : M unit := MkM (fun t => (Ok tt, t ++ [ev])).

(** [try: body  except requests.RequestException as e: handler(e)] *)
Definition try_except_RequestException {A} (body : M A)
    (handler : request_exception -> M A) : M A :=
  MkM (fun t =>
         match run body t with
         | (Raise (RequestException e), t') => run (handler e) t'
         | r => r
         end).

(** What the search service answers with: the body of a search response
    as [response.json()] gives it, with the fields that [clean_up] reads.
    A field is [None] when its key is absent. *)
Record source : Type := {
  ciks : option (list string);
  adsh : option string;
  display_names : option (list string);
  file_date : option string;
  biz_locations : option (list string)
}.

Record item : Type := { _source : option source }.

Record hits_object : Type := { inner_hits : option (list item) }.

Record search_json : Type := { hits : option hits_object }.

Record response : Type := {
  status_code : N;
  reason : string;
  url : string;
  text : string
}.

(** The network and the two parsers.  The answer to a request may depend
    on everything that happened before it. *)
Record world : Type := {
  http : trace -> string -> list (string * string)
         -> request_exception + response;
  json_of : string -> string + search_json; (* [json.loads] of a body, or
                                               the decoder's message *)
  lxml_of : string -> Soup.node             (* [BeautifulSoup(text, 'lxml')] *)
}.

(** [requests.get(url, headers=HEADERS, params=params)] *)
Definition requests_get (w : world) (url : string)
    (params : list (string * string)) : M response :=
  MkM (fun t =>
         match http w t url params with
         | inl e => (Raise (RequestException e), t ++ [EvGet url params])
         | inr r => (Ok r, t ++ [EvGet url params])
         end).

(** The message that [Response.raise_for_status] builds: one for the 4xx
    status codes, one for the 5xx status codes, none for the others. *)
Definition http_error_msg (r : response) : option string :=
  if ((400 <=? status_code r) && (status_code r <? 500))%N then
    Some (PyStr.of_N (status_code r) ++ " Client Error: " ++ reason r
          ++ " for url: " ++ url r)%string
  else if ((500 <=? status_code r) && (status_code r <? 600))%N then
    Some (PyStr.of_N (status_code r) ++ " Server Error: " ++ reason r
          ++ " for url: " ++ url r)%string
  else None.

(** [response.raise_for_status()]: an [HTTPError] when there is a
    message. *)
Definition raise_for_status (r : response) : M unit :=
  match http_error_msg r with
  | Some msg => lift (Raise (RequestException (HTTPError msg)))
  | None => mret tt
  end.

(** [response.json()] *)
Definition response_json (w : world) (r : response) : M search_json :=
  match json_of w (text r) with
  | inr j => mret j
  | inl msg => lift (Raise (RequestException (JSONDecodeError msg)))
  end.

End Effects.

(** ** The pipeline: [clean_up], [add_and_edit], [fetch_sec_filings] *)

Module Pipeline.
Import Effects.

Definition URL : string := "https://efts.sec.gov/LATEST/search-index".

Definition dquote : string := String (ascii_of_nat 34) "".

(** The URL template of a filing's primary document. *)
Definition primary_doc_url (cik adsh : string) : string :=
  "https://www.sec.gov/Archives/edgar/data/" ++ cik ++ "/" ++ adsh
  ++ "/xslFormDX01/primary_doc.xml".

(** The anchor element that [clean_up] builds for one CIK. *)
Definition edgar_anchor (adsh_cleaned cik : string) : string :=
  "<a href=" ++ dquote
  ++ primary_doc_url (PyStr.lstrip_zeros cik) adsh_cleaned
  ++ dquote ++ " target=" ++ dquote ++ "_blank" ++ dquote ++ ">Link</a>".

(** ['ciks' in source and source.get('adsh')] *)
Definition has_ciks_and_adsh (src : source) : bool :=
  match ciks src, adsh src with
  | Some _, Some a => PyStr.truthy a
  | _, _ => false
  end.

Definition edgar_links (src : source) : string :=
  if has_ciks_and_adsh src then
    let adsh_cleaned := PyStr.remove_hyphens (default "" (adsh src)) in
    PyStr.join ", "
      (List.map (edgar_anchor adsh_cleaned) (default [] (ciks src)))
  else "No links available".

(** The dictionary built for one hit (lines 58-79). *)
Definition make_result (src : source) : gmap string string :=
  let cik_cleaned := List.map PyStr.lstrip_zeros (default [] (ciks src)) in
  <["Edgar" := edgar_links src]>
  (<["ADSH" := PyStr.remove_hyphens (default "N/A" (adsh src))]>
  (<["Business Location(s)" := PyStr.join ", " (default [] (biz_locations src))]>
  (<["File Date" := default "Unknown" (file_date src)]>
  (<["Company Name" := PyStr.join ", " (default [] (display_names src))]>
  (<["CIK" := PyStr.join ", " cik_cleaned]> ∅))))).

Definition empty_source : source :=
  {| ciks := None; adsh := None; display_names := None;
     file_date := None; biz_locations := None |}.

(** [item.get("_source", {})] *)
Definition source_of (it : item) : source := default empty_source (_source it).

(** The first loop of [clean_up]: one dictionary per hit, when
    [response['hits']['hits']] exists. *)
Definition initial_results (response : search_json) : list (gmap string string) :=
  match hits response with
  | Some h =>
      match inner_hits h with
      | Some items =>
          fold_left (fun results it => results ++ [make_result (source_of it)])
                    items []
      | None => []
      end
  | None => []
  end.

(** [d[k]] *)
Definition getitem (d : gmap string string) (k : string) : res string :=
  match d !! k with
  | Some v => Ok v
  | None => Raise KeyError
  end.

(** The detail-page URL that [add_and_edit] requests for one record. *)
Definition newLink (company : gmap string string) : res string :=
  cik ← getitem company "CIK";
  adsh ← getitem company "ADSH";
  let cikNumNoZeros := PyStr.lstrip_zeros cik in
  let adshNoHyphens := PyStr.remove_hyphens adsh in
  Ok (primary_doc_url cikNumNoZeros adshNoHyphens).

(** The three assignments at the end of the loop body, on the parsed
    page. *)
Definition enrich (page : Soup.node) (company : gmap string string)
  : res (gmap string string) :=
  let company :=
    <["Related Persons" :=
        PyStr.join ", " (Extract.extract_related_persons page)]> company in
  phone ← Extract.extract_phone_number page;
  let company := <["Phone Number" := phone]> company in
  amounts ← Extract.extract_offering_amounts page;
  let '(offered, raised) := amounts in
  Ok (<["Total Offering Amount / Amount Raised" :=
          (offered ++ " / " ++ raised)%string]> company).

(** The body of the loop of [add_and_edit]. *)
Definition add_and_edit_one (w : world) (company : gmap string string)
  : M (gmap string string) :=
  link ← lift (newLink company);
  responseNew ← requests_get w link [];
  let soup := lxml_of w (text responseNew) in
  lift (enrich soup company).

(** [add_and_edit(myResults)]: the records are updated in place, in order;
    the updated list is returned here. *)
Fixpoint add_and_edit (w : world) (myResults : list (gmap string string))
  : M (list (gmap string string)) :=
  match myResults with
  | [] => mret []
  | company :: rest =>
      company' ← add_and_edit_one w company;
      rest' ← add_and_edit w rest;
      mret (company' :: rest')
  end.

(** [result.pop('CIK', None); result.pop('ADSH', None)] *)
Definition pop_identifiers (result : gmap string string) : gmap string string :=
  delete "ADSH" (delete "CIK" result).

(** [entry.get("Related Persons")] as a condition. *)
Definition has_related_persons (entry : gmap string string) : bool :=
  match entry !! "Related Persons" with
  | Some s => PyStr.truthy s
  | None => false
  end.

Definition clean_up (w : world) (response : search_json)
  : M (list (gmap string string)) :=
  let results := initial_results response in
  results ← add_and_edit w results;
  let results := List.map pop_identifiers results in
  let filtered_results := List.filter has_related_persons results in
  mret filtered_results.

Definition search_params (start_date end_date : string)
  : list (string * string) :=
  [("dateRange", "custom"); ("startdt", start_date); ("enddt", end_date);
   ("forms", "D")].

(** [fetch_sec_filings(start_date, end_date)]; the result is [None] after
    a request failure. *)
Definition fetch_sec_filings (w : world) (start_date end_date : string)
  : M (option (list (gmap string string))) :=
  let params := search_params start_date end_date in
  try_except_RequestException
    (response ← requests_get w URL params;
     _ ← raise_for_status response;
     js ← response_json w response;
     results ← clean_up w js;
     mret (Some results))
    (fun e =>
       _ ← emit (EvError ("Request failed: " ++ exn_str e));
       mret None).

(** [if filings:] *)
Definition filings_truthy (filings : option (list (gmap string string))) : bool :=
  match filings with
  | Some (_ :: _) => true
  | _ => false
  end.

(** The branch of [main] taken when the button is pressed. *)
Definition check_for_filings (w : world) (start_date end_date : string)
  : M unit :=
  filings ← fetch_sec_filings w start_date end_date;
  if filings_truthy filings then
    emit (EvWriteTable (default [] filings))
  else
    emit (EvWrite "No filings found or an error occurred.").

End Pipeline.

(** ** Notions used in the statements *)

Module Claims.
Import Soup Extract Effects Pipeline.

(** The page has a [tag] cell whose string is exactly [label]. *)
Definition has_cell (tag label : string) (page : node) : Prop :=
  exists p attrs cs,
    In (p, Tag tag attrs cs) (descendants [] page)
    /\ node_string (Tag tag attrs cs) = Some label.

(** The name of a data row as the specification words it: the texts of
    its cells, last column first, joined by single spaces. *)
Definition reversed_cells_name (row : elem) : string :=
  PyStr.join " "
    (List.rev (List.map (fun col => get_text_strip (snd col))
                        (find_all (by_name "td") row))).

(** The hits of a search response, in the order of the response. *)
Definition hit_sources (response : search_json) : list source :=
  match hits response with
  | Some h => List.map source_of (default [] (inner_hits h))
  | None => []
  end.

(** The hit has no usable identifier pair. *)
Definition lacks_ciks_adsh (src : source) : Prop :=
  ciks src = None \/ adsh src = None \/ adsh src = Some "".

(** A record with one field for the offering amount and another one for
    the amount sold. *)
Definition separate_amount_fields (r : gmap string string)
    (offered sold : string) : Prop :=
  exists k_offered k_sold,
    k_offered <> k_sold
    /\ r !! k_offered = Some offered /\ r !! k_sold = Some sold.

(** The fields of a record of the final list. *)
Definition output_fields : gset string :=
  {[ "Company Name"; "File Date"; "Business Location(s)"; "Edgar";
     "Related Persons"; "Phone Number";
     "Total Offering Amount / Amount Raised" ]}.

(** The search request fails: a network error, or a response with a 4xx
    or 5xx status. *)
Definition request_fails (reply : request_exception + response) : Prop :=
  match reply with
  | inl _ => True
  | inr r => (400 <= status_code r < 600)%N
  end.

(** The message of the error behind a failed request. *)
Definition failure_message (reply : request_exception + response) : string :=
  match reply with
  | inl e => exn_str e
  | inr r => default "" (http_error_msg r)
  end.

End Claims.

(** ** Concrete pages, hits and networks *)

Module Examples.
Import Soup Extract Effects Pipeline.

Definition txt (s : string) : node := Str NavigableString s.
Definition el (name : string) (cs : list node) : node := Tag name ∅ cs.
Definition td (s : string) : node := el "td" [txt s].
Definition th (s : string) : node := el "th" [txt s].

(** One "Related Persons" table: a header row and three data rows. *)
Definition related_persons_table : node :=
  Tag "table" {["summary" := AStr "Related Persons"]}
    [el "tr" [th "Last Name"; th "First Name"];
     el "tr" [td "Doe"; td "John"];
     el "tr" [td "Roe"; td "Jane"];
     el "tr" [td "Poe"; td "Jim"]].

Definition page_related : node :=
  soup [el "html" [el "body" [related_persons_table]]].

Definition phone_table : node :=
  el "table"
    [el "tr" [th "Name of Issuer"; th "Phone Number of Issuer"];
     el "tr" [td "ACME"; td "555-0100"]].

Definition amounts_table : node :=
  el "table"
    [el "tr" [td "Total Offering Amount"; td "$1,000"];
     el "tr" [td "Total Amount Sold"; td "$250"]].

(** A complete detail page. *)
Definition page_full : node :=
  soup [el "html" [el "body"
    [related_persons_table; phone_table; amounts_table]]].

(** The offering amount is blank and the checkbox is not ticked. *)
Definition page_blank_unticked : node :=
  soup [el "html" [el "body"
    [el "table"
       [el "tr" [td "Total Offering Amount"; td " ";
                 el "td" [Tag "span" {["class" := AList ["FormData"]]} [txt " "]]];
        el "tr" [td "Total Amount Sold"; td "$250"]]]]].

(** The offering amount is blank and the checkbox is ticked. *)
Definition page_blank_ticked : node :=
  soup [el "html" [el "body"
    [el "table"
       [el "tr" [td "Total Offering Amount"; td " ";
                 el "td" [Tag "span" {["class" := AList ["FormData"]]} [txt "X"]]];
        el "tr" [td "Total Amount Sold"; td "$250"]]]]].

(** The label of the amount sold is missing. *)
Definition page_no_sold : node :=
  soup [el "html" [el "body"
    [el "table" [el "tr" [td "Total Offering Amount"; td "$1,000"]]]]].

(** The phone header stands in a table without any data cell. *)
Definition page_phone_no_cells : node :=
  soup [el "html" [el "body"
    [el "table" [el "tr" [th "Phone Number of Issuer"]]]]].

Definition hit_1234567 : source :=
  {| ciks := Some ["0001234567"];
     adsh := Some "0001234567-24-000001";
     display_names := Some ["ACME Fund LP"];
     file_date := Some "2024-01-02";
     biz_locations := Some ["New York, NY"] |}.

Definition hit_no_ciks : source :=
  {| ciks := None;
     adsh := Some "0001234567-24-000001";
     display_names := Some ["ACME Fund LP"];
     file_date := Some "2024-01-02";
     biz_locations := Some ["New York, NY"] |}.

Definition one_hit : search_json :=
  {| hits := Some {| inner_hits := Some [ {| _source := Some hit_1234567 |} ] |} |}.

(** The record that [clean_up] returns for [hit_1234567] and
    [page_full]. *)
Definition record_full : gmap string string :=
  <["Total Offering Amount / Amount Raised" := "$1,000 / $250"]>
  (<["Phone Number" := "555-0100"]>
  (<["Related Persons" := "John Doe, Jane Roe"]>
  (<["Edgar" := edgar_links hit_1234567]>
  (<["Business Location(s)" := "New York, NY"]>
  (<["File Date" := "2024-01-02"]>
  (<["Company Name" := "ACME Fund LP"]> ∅)))))).

Definition reply (status : N) (why : string) (u : string) : response :=
  {| status_code := status; reason := why; url := u; text := "" |}.

(** Every request is answered with [200 OK]; the search finds one hit
    and every detail page is [page_full]. *)
Definition world_ok : world :=
  {| http := fun _ u _ => inr (reply 200 "OK" u);
     json_of := fun _ => inr one_hit;
     lxml_of := fun _ => page_full |}.

(** As [world_ok], but the search is answered with
    [300 Multiple Choices]. *)
Definition world_300 : world :=
  {| http := fun _ u _ =>
               if String.eqb u URL then inr (reply 300 "Multiple Choices" u)
               else inr (reply 200 "OK" u);
     json_of := fun _ => inr one_hit;
     lxml_of := fun _ => page_full |}.

(** The search is answered with [503 Service Unavailable]. *)
Definition world_503 : world :=
  {| http := fun _ u _ => inr (reply 503 "Service Unavailable" u);
     json_of := fun _ => inr one_hit;
     lxml_of := fun _ => page_full |}.

End Examples.

(** ** More notions for the statements *)

Module Notions.
Import Soup Extract Effects Pipeline.

(** The field "CIK" of the record built for a hit. *)
Definition cik_field (src : source) : string :=
  PyStr.join ", " (List.map PyStr.lstrip_zeros (default [] (ciks src))).

(** The field "ADSH" of the record built for a hit. *)
Definition adsh_field (src : source) : string :=
  PyStr.remove_hyphens (default "N/A" (adsh src)).

(** The detail page of a hit: the URL template filled with the two
    fields. *)
Definition detail_url_of (src : source) : string :=
  primary_doc_url (cik_field src) (adsh_field src).

(** The anchor element around a URL. *)
Definition anchor (href : string) : string :=
  "<a href=" ++ dquote ++ href ++ dquote ++ " target=" ++ dquote ++ "_blank"
  ++ dquote ++ ">Link</a>".

Definition starts_with_zero (s : string) : bool :=
  match s with
  | String c _ => Ascii.eqb c "0"%char
  | EmptyString => false
  end.

(** An exception that [except requests.RequestException] lets through. *)
Definition not_RequestException (e : exn) : Prop :=
  match e with
  | RequestException _ => False
  | _ => True
  end.

(** What [main] writes for the list that [fetch_sec_filings] returned. *)
Definition shown (filings : list (gmap string string)) : event :=
  match filings with
  | [] => EvWrite "No filings found or an error occurred."
  | _ :: _ => EvWriteTable filings
  end.

(** The records after enrichment, as the run from the trace [t] gets them:
    for each hit in turn, the record built from the hit, enriched from the
    page that the network serves at the detail URL of the hit.  [None] when
    a request or an extractor fails. *)
Fixpoint enriched_records (w : world) (t : trace) (srcs : list source)
  : option (list (gmap string string)) :=
  match srcs with
  | [] => Some []
  | src :: rest =>
      match http w t (detail_url_of src) [] with
      | inl _ => None
      | inr resp =>
          match enrich (lxml_of w (text resp)) (make_result src) with
          | Raise _ => None
          | Ok r =>
              match enriched_records w (t ++ [EvGet (detail_url_of src) []]) rest with
              | Some rs => Some (r :: rs)
              | None => None
              end
          end
      end
  end.

(** The pages that the run from the trace [t] parses: the answers to the
    detail requests of the hits, one after the other, up to the first
    request or extractor that fails. *)
Fixpoint detail_pages (w : world) (t : trace) (srcs : list source)
  : list Soup.node :=
  match srcs with
  | [] => []
  | src :: rest =>
      match http w t (detail_url_of src) [] with
      | inl _ => []
      | inr resp =>
          let page := lxml_of w (text resp) in
          page ::
          (if is_Ok (enrich page (make_result src))
           then detail_pages w (t ++ [EvGet (detail_url_of src) []]) rest
           else [])
      end
  end.

End Notions.

(** ** The application: the chat side bar and [main] *)

Module App.
Import Effects Pipeline.

(** One entry of the chat history, [{"role": ..., "content": ...}]. *)
Record message : Type := { role : string; content : string }.

(** [st.session_state], with the two keys that the script reads and
    writes; a key is [None] when it is absent.  The value of
    ["filing_results"] is Python's [None] or the data frame of the last
    query, kept as its rows. *)
Record session_state : Type := {
  chatbot_messages : option (list message);
  filing_results : option (option (list (gmap string string)))
}.

(** What the widgets return during one run of the script. *)
Record inputs : Type := {
  openai_api_key : string;     (* st.text_input in the popover *)
  prompt : option string;      (* st.chat_input() *)
  start_date : string;         (* st.date_input("Start Date") *)
  end_date : string;           (* st.date_input("End Date") *)
  button : bool                (* st.button("Check for Filings") *)
}.

(** What one run does, in order: the events of the pipeline and the other
    calls of Streamlit and of the chat API. *)
Inductive app_event : Type :=
| Pipe (ev : event)
| Header (body : string)                    (* st.header *)
| Chat (name : string) (body : string)      (* st.chat_message(name).write(body) *)
| Info (body : string)                      (* st.info *)
| Title (body : string)                     (* st.title *)
| Markdown (body : string)                  (* st.markdown(body, unsafe_allow_html=True) *)
| Completion (model : string) (messages : list message).
                                            (* client.chat.completions.create *)

Inductive app_exn : Type :=
| PyError (e : exn)             (* an exception of the pipeline *)
| OpenAIError (msg : string).   (* an exception of the chat API *)

(** How a run ends: normally, by [st.stop()], or by an exception that
    nothing catches. *)
Inductive app_res (A : Type) : Type :=
| Done (a : A)
| Stopped
| Crashed (e : app_exn).
Arguments Done {A} a.
Arguments Stopped {A}.
Arguments Crashed {A} e.

Record app_state : Type := {
  session : session_state;
  log : list app_event
}.

Record AppM (A : Type) : Type :=
  MkApp { run_app : app_state -> app_res A * app_state }.
Arguments MkApp {A} run_app.
Arguments run_app {A} _ _.

#[global] Instance AppM_ret : MRet AppM := fun A a => MkApp (fun st => (Done a, st)).

#[global] Instance AppM_bind : MBind AppM := fun A B k m =>
  MkApp (fun st =>
           match run_app m st with
           | (Done a, st') => run_app (k a) st'
           | (Stopped, st') => (Stopped, st')
           | (Crashed e, st') => (Crashed e, st')
           end).

Definition ui (ev : app_event) : AppM unit :=
  MkApp (fun st => (Done tt, {| session := session st; log := log st ++ [ev] |})).

(** [st.stop()] *)
Definition st_stop {A} : AppM A := MkApp (fun st => (Stopped, st)).

Definition get_session : AppM session_state :=
  MkApp (fun st => (Done (session st), st)).

Definition set_session (ss : session_state) : AppM unit :=
  MkApp (fun st => (Done tt, {| session := ss; log := log st |})).

(** The events of the pipeline in a log. *)
Definition pipe_trace (l : list app_event) : trace :=
  omap (fun ev => match ev with Pipe e => Some e | _ => None end) l.

(** A computation of the pipeline inside a run: it sees the events of the
    pipeline so far and adds its own. *)
Definition pipeline {A} (m : M A) : AppM A :=
  MkApp (fun st =>
           let t := pipe_trace (log st) in
           let '(r, t') := run m t in
           let st' := {| session := session st;
                         log := log st ++ List.map Pipe (drop (length t) t') |} in
           match r with
           | Ok a => (Done a, st')
           | Raise e => (Crashed (PyError e), st')
           end).

(** The chat API, as the network: an answer or the message of an
    exception, for a key, a model and a history. *)
Record app_world : Type := {
  net : world;
  openai : list app_event -> string -> string -> list message -> string + string
}.

(** [client.chat.completions.create(model=..., messages=...)] and
    [response.choices[0].message.content] *)
Definition chat_completion (aw : app_world) (api_key model : string)
    (messages : list message) : AppM string :=
  MkApp (fun st =>
           let st' := {| session := session st;
                         log := log st ++ [Completion model messages] |} in
           match openai aw (log st) api_key model messages with
           | inl msg => (Crashed (OpenAIError msg), st')
           | inr reply => (Done reply, st')
           end).

Definition greeting : message :=
  {| role := "assistant"; content := "Ask me anything about the Form D filings" |}.

(** [st.session_state["chatbot_messages"]] *)
Definition get_messages : AppM (list message) :=
  MkApp (fun st =>
           match chatbot_messages (session st) with
           | Some l => (Done l, st)
           | None => (Crashed (PyError KeyError), st)
           end).

(** [st.session_state["chatbot_messages"].append(m)] *)
Definition append_message (m : message) : AppM unit :=
  l ← get_messages;
  ss ← get_session;
  set_session {| chatbot_messages := Some (l ++ [m]);
                 filing_results := filing_results ss |}.

(** The loop that writes the history. *)
Fixpoint write_messages (l : list message) : AppM unit :=
  match l with
  | [] => mret tt
  | msg :: l' => _ ← ui (Chat (role msg) (content msg)); write_messages l'
  end.

Definition user_message (p : string) : message :=
  {| role := "user"; content := p |}.

Definition assistant_message (msg : string) : message :=
  {| role := "assistant"; content := msg |}.

(** The text of the header, in UTF-8. *)
Definition header_text : string := "💬 ChatGPT".

(** Lines 17-40: the side bar. *)
Definition sidebar (aw : app_world) (inp : inputs) : AppM unit :=
  _ ← ui (Header header_text);
  ss ← get_session;
  _ ← match chatbot_messages ss with
      | None => set_session {| chatbot_messages := Some [greeting];
                               filing_results := filing_results ss |}
      | Some _ => mret tt
      end;
  l ← get_messages;
  _ ← write_messages l;
  match prompt inp with
  | Some p =>
      if PyStr.truthy p then
        _ ← (if negb (PyStr.truthy (openai_api_key inp)) then
               _ ← ui (Info "Please add your OpenAI API key to continue.");
               st_stop
             else mret tt);
        _ ← append_message (user_message p);
        _ ← ui (Chat "user" p);
        messages ← get_messages;
        msg ← chat_completion aw (openai_api_key inp) "gpt-4o" messages;
        _ ← append_message (assistant_message msg);
        ui (Chat "assistant" msg)
      else mret tt
  | None => mret tt
  end.

Definition center_css : string := "
    <style>
    th, td {
        text-align: center;
    }
    </style>
    ".

(** [st.session_state["filing_results"]] *)
Definition get_filing_results : AppM (option (list (gmap string string))) :=
  MkApp (fun st =>
           match filing_results (session st) with
           | Some v => (Done v, st)
           | None => (Crashed (PyError KeyError), st)
           end).

(** Lines 94-125: [main]. *)
Definition main (aw : app_world) (inp : inputs) : AppM unit :=
  _ ← ui (Title "Daily Form D Filings");
  _ ← ui (Markdown center_css);
  ss ← get_session;
  _ ← match filing_results ss with
      | None => set_session {| chatbot_messages := chatbot_messages ss;
                               filing_results := Some None |}
      | Some _ => mret tt
      end;
  if button inp then
    filings ← pipeline (fetch_sec_filings (net aw) (start_date inp) (end_date inp));
    if filings_truthy filings then
      let df := default [] filings in
      ss ← get_session;
      _ ← set_session {| chatbot_messages := chatbot_messages ss;
                         filing_results := Some (Some df) |};
      ui (Pipe (EvWriteTable df))
    else
      ui (Pipe (EvWrite "No filings found or an error occurred."))
  else
    stored ← get_filing_results;
    match stored with
    | Some df => ui (Pipe (EvWriteTable df))
    | None => mret tt
    end.

(** One run of the script: the side bar, then [main]. *)
Definition script (aw : app_world) (inp : inputs) : AppM unit :=
  _ ← sidebar aw inp; main aw inp.

(** The chat history that a run starts from. *)
Definition history (ss : session_state) : list message :=
  default [greeting] (chatbot_messages ss).

(** What the loop over the history writes for one message. *)
Definition chat_of (m : message) : app_event := Chat (role m) (content m).

(** The stored result of the last query, [None] included. *)
Definition stored_results (ss : session_state)
  : option (list (gmap string string)) :=
  default None (filing_results ss).

End App.

(** ** More concrete pages, networks and runs *)

Module Examples2.
Import Soup Extract Effects Pipeline App Examples.

(** The "Related Persons" table has a header row and nothing else. *)
Definition page_header_only : node :=
  soup [el "html" [el "body"
    [Tag "table" {["summary" := AStr "Related Persons"]}
       [el "tr" [th "Last Name"; th "First Name"]]]]].

Definition no_hits : search_json := {| hits := None |}.

Definition two_hits : search_json :=
  {| hits := Some {| inner_hits :=
       Some [ {| _source := Some hit_1234567 |}; {| _source := None |} ] |} |}.

(** The search answers, the detail pages do not. *)
Definition world_detail_down : world :=
  {| http := fun _ u _ =>
               if String.eqb u URL then inr (reply 200 "OK" u)
               else inl (ConnectionError "Connection refused");
     json_of := fun _ => inr one_hit;
     lxml_of := fun _ => page_full |}.

(** Every detail page has a blank offering amount and no tick. *)
Definition world_unticked : world :=
  {| http := fun _ u _ => inr (reply 200 "OK" u);
     json_of := fun _ => inr one_hit;
     lxml_of := fun _ => page_blank_unticked |}.

(** The body of the search response is not JSON. *)
Definition world_not_json : world :=
  {| http := fun _ u _ => inr (reply 200 "OK" u);
     json_of := fun _ => inl "Expecting value: line 1 column 1 (char 0)";
     lxml_of := fun _ => page_full |}.

(** No detail page has a "Related Persons" table. *)
Definition world_no_related : world :=
  {| http := fun _ u _ => inr (reply 200 "OK" u);
     json_of := fun _ => inr one_hit;
     lxml_of := fun _ => page_no_sold |}.

(** Only the first request is answered. *)
Definition world_second_down : world :=
  {| http := fun t u _ =>
               match t with
               | [] => inr (reply 200 "OK" u)
               | _ :: _ => inl (ConnectionError "Read timed out")
               end;
     json_of := fun _ => inr two_hits;
     lxml_of := fun _ => page_full |}.

Definition app_ok : app_world :=
  {| net := world_ok;
     openai := fun _ _ _ _ => inr "A notice of an exempt offering of securities." |}.

Definition app_chat_down : app_world :=
  {| net := world_ok;
     openai := fun _ _ _ _ => inl "Incorrect API key provided" |}.

Definition app_503 : app_world :=
  {| net := world_503;
     openai := fun _ _ _ _ => inr "" |}.

Definition app_unticked : app_world :=
  {| net := world_unticked;
     openai := fun _ _ _ _ => inr "" |}.

Definition asks (key : string) : inputs :=
  {| openai_api_key := key; prompt := Some "What is a Form D?";
     start_date := "2024-01-01"; end_date := "2024-01-31"; button := false |}.

Definition presses : inputs :=
  {| openai_api_key := ""; prompt := None;
     start_date := "2024-01-01"; end_date := "2024-01-31"; button := true |}.

Definition idles : inputs :=
  {| openai_api_key := ""; prompt := None;
     start_date := "2024-01-01"; end_date := "2024-01-31"; button := false |}.

(** The session of a first run. *)
Definition session_new : session_state :=
  {| chatbot_messages := None; filing_results := None |}.

(** The session after a query that found [record_full]. *)
Definition session_with_table : session_state :=
  {| chatbot_messages := Some [greeting];
     filing_results := Some (Some [record_full]) |}.

(** The checkbox is ticked, and the label of the amount sold is the last
    cell of the page. *)
Definition page_ticked_sold_last : node :=
  soup [el "html" [el "body"
    [el "table"
       [el "tr" [td "Total Offering Amount"; td " ";
                 el "td" [Tag "span" {["class" := AList ["FormData"]]} [txt "X"]]];
        el "tr" [td "Total Amount Sold"]]]]].

(** Some detail pages have a "Related Persons" table, but not the one that
    is served. *)
Definition world_mixed : world :=
  {| http := fun _ u _ => inr (reply 200 "OK" u);
     json_of := fun _ => inr one_hit;
     lxml_of := fun body => if String.eqb body "" then page_no_sold else page_full |}.

End Examples2.

(** * Facts *)

(** ** The page tree *)

Module SoupFacts.
Import Soup.

(** Induction on the tree: the children of a tag satisfy the property. *)
Lemma node_ind' (P : node -> Prop) :
  (forall k s, P (Str k s)) ->
  (forall name attrs cs, Forall P cs -> P (Tag name attrs cs)) ->
  forall n, P n.
Proof.
  intros HStr HTag.
  fix IH 1. intros [k s | name attrs cs].
  - apply HStr.
  - apply HTag. induction cs as [| c cs IHcs]; constructor.
    + apply IH.
    + apply IHcs.
Qed.

Lemma descendants_Tag p name attrs cs :
  descendants p (Tag name attrs cs) = descendants_from p 0 cs.
Proof.
  simpl. generalize 0%nat. induction cs as [| c cs IH]; intros i.
  - reflexivity.
  - simpl. f_equal. f_equal. apply IH.
Qed.

Lemma at_path_app n p q :
  at_path n (p ++ q) = at_path n p ≫= fun m => at_path m q.
Proof.
  revert n. induction p as [| i p IH]; intros n; simpl.
  - reflexivity.
  - destruct (contents_of n !! i); [apply IH | reflexivity].
Qed.

(** What [descendants] lists: the nodes strictly below, each with its
    path. *)
Lemma elem_of_descendants n : forall p q m,
  In (q, m) (descendants p n) <->
  exists s, s <> [] /\ q = p ++ s /\ at_path n s = Some m.
Proof.
  induction n as [k s | name attrs cs IH] using node_ind'; intros p q m.
  - simpl. split; [tauto |].
    intros (s' & Hne & _ & Hat). destruct s' as [| i s']; [congruence |].
    destruct i; simpl in Hat; discriminate.
  - rewrite descendants_Tag.
    assert (Hgen : forall i,
      In (q, m) (descendants_from p i cs) <->
      exists j s, q = p ++ (i + j)%nat :: s /\
                  (cs !! j ≫= fun c => at_path c s) = Some m).
    { induction IH as [| c cs Hc _ IHcs]; intros i.
      - simpl. split; [tauto |]. intros (j & s & _ & H).
        destruct j; simpl in H; discriminate.
      - simpl. rewrite in_app_iff, Hc, IHcs. split.
        + intros [Heq | [(s & Hne & -> & Hat) | (j & s & -> & Hat)]].
          * inversion Heq; subst. exists 0%nat, []. split.
            -- f_equal. f_equal. lia.
            -- reflexivity.
          * exists 0%nat, s. split.
            -- rewrite <- app_assoc. simpl. f_equal. f_equal. lia.
            -- exact Hat.
          * exists (S j), s. split.
            -- f_equal. f_equal. lia.
            -- exact Hat.
        + intros (j & s & -> & Hat). destruct j as [| j].
          * simpl in Hat. replace (i + 0)%nat with i by lia.
            destruct s as [| a s].
            -- left. simpl in Hat. injection Hat as ->. reflexivity.
            -- right. left. exists (a :: s). split; [discriminate |].
               split; [| exact Hat].
               rewrite <- app_assoc. reflexivity.
          * right. right. exists j, s. split; [| exact Hat].
            f_equal. f_equal. lia. }
    rewrite Hgen. split.
    + intros (j & s & -> & Hat). exists (j :: s).
      split; [discriminate |]. split; [reflexivity |].
      simpl. destruct (cs !! j); exact Hat.
    + intros (s & Hne & -> & Hat). destruct s as [| j s]; [congruence |].
      exists j, s. split; [reflexivity |].
      simpl in Hat. destruct (cs !! j); exact Hat.
Qed.

Lemma node_eqb_refl n : node_eqb n n = true.
Proof.
  induction n as [k s | name attrs cs IH] using node_ind'; simpl.
  - apply String.eqb_refl.
  - rewrite String.eqb_refl, bool_decide_eq_true_2 by reflexivity. simpl.
    induction IH as [| c cs Hc _ IHcs]; [reflexivity |].
    rewrite Hc. exact IHcs.
Qed.

(** [l.index(x)] succeeds when [x] is one of the elements of [l]. *)
Lemma index_of_elem x p l :
  In (p, x) l -> exists i, index_of x l = Some i /\ (i < length l)%nat.
Proof.
  induction l as [| e l IH]; simpl; [tauto |].
  intros [-> | Hin].
  - simpl. rewrite node_eqb_refl. exists 0%nat. split; [reflexivity | lia].
  - destruct (node_eqb (snd e) x).
    + exists 0%nat. split; [reflexivity | lia].
    + destruct (IH Hin) as (i & -> & Hi). exists (S i).
      split; [reflexivity | lia].
Qed.

Lemma in_select st e l :
  In e (select st l) <-> In e l /\ search_tag st (snd e) = true.
Proof. unfold select. apply filter_In. Qed.

Lemma select_nil st l :
  (forall e, In e l -> search_tag st (snd e) = false) -> select st l = [].
Proof.
  intros H. induction l as [| e l IH]; [reflexivity |].
  unfold select in *. simpl. rewrite (H e) by (left; reflexivity).
  apply IH. intros e' He'. apply H. right. exact He'.
Qed.

(** [find] returns an element of the tree that passes the strainer. *)
Lemma find_Some st e x :
  find st e = Some x ->
  In x (descendants (fst e) (snd e)) /\ search_tag st (snd x) = true.
Proof.
  unfold find, find_all. intros H. apply in_select.
  destruct (select st _) as [| y l]; [discriminate |].
  injection H as ->. left. reflexivity.
Qed.

Lemma find_None st e :
  (forall x, In x (descendants (fst e) (snd e)) -> search_tag st (snd x) = false) ->
  find st e = None.
Proof. intros H. unfold find, find_all. rewrite select_nil; [reflexivity | exact H]. Qed.

(** A search by name and text: what [search_tag] tests. *)
Lemma search_tag_by_string name label n :
  PyStr.truthy label = true ->
  search_tag {| s_name := name; s_attrs := []; s_string := Some label |} n = true ->
  exists attrs cs, n = Tag name attrs cs /\ node_string n = Some label.
Proof.
  intros Hl. destruct n as [k s | nm attrs cs]; [discriminate |].
  unfold search_tag. cbn [s_name s_attrs s_string forallb]. rewrite Hl.
  rewrite andb_true_r. intros [Hn Hs]%andb_prop.
  apply String.eqb_eq in Hn as ->. exists attrs, cs. split; [reflexivity |].
  unfold matches_string in Hs.
  destruct (node_string _) as [s |].
  - apply String.eqb_eq in Hs as ->. reflexivity.
  - rewrite Hl in Hs. discriminate.
Qed.

Lemma search_tag_by_name name nm attrs cs :
  search_tag (by_name name) (Tag nm attrs cs) = String.eqb nm name.
Proof. unfold search_tag, by_name. simpl. rewrite !andb_true_r. reflexivity. Qed.

Lemma parent_Some root e x :
  parent root e = Some x ->
  exists i, fst e = fst x ++ [i] /\ at_path root (fst x) = Some (snd x).
Proof.
  unfold parent. destruct e as [p n]. simpl.
  destruct p as [| a p]; [discriminate |].
  destruct (at_path root (removelast (a :: p))) as [m |] eqn:Hat; [| discriminate].
  intros H. injection H as <-. simpl fst. simpl snd.
  exists (List.last (a :: p) 0%nat). split; [| exact Hat].
  apply app_removelast_last. discriminate.
Qed.
End SoupFacts.

(** ** The extractors *)

Module ExtractFacts.
Import Soup Extract SoupFacts Claims.

Example strip_phone : PyStr.strip "  555-0100
" = "555-0100".
Proof. reflexivity. Qed.

Example extract_page_full :
  extract_related_persons Examples.page_full = ["John Doe"; "Jane Roe"]
  /\ extract_phone_number Examples.page_full = Ok "555-0100"
  /\ extract_offering_amounts Examples.page_full = Ok ("$1,000", "$250").
Proof. repeat split; reflexivity. Qed.

Example extract_page_blank_ticked :
  extract_offering_amounts Examples.page_blank_ticked = Ok ("Indefinite", "$250").
Proof. reflexivity. Qed.

Lemma no_cell_find_None tag label page :
  PyStr.truthy label = true ->
  ~ has_cell tag label page ->
  find {| s_name := tag; s_attrs := []; s_string := Some label |} (doc page) = None.
Proof.
  intros Hl Hno. apply find_None. intros [p n] Hin.
  destruct (search_tag _ (snd (p, n))) eqn:Hs; [| reflexivity].
  exfalso. apply Hno.
  apply search_tag_by_string in Hs as (attrs & cs & Hn & Hstr); [| exact Hl].
  simpl in Hn. subst n. exists p, attrs, cs. split; assumption.
Qed.

(** A test that decides the absence of a cell on a concrete page. *)
Lemma not_has_cell tag label page :
  existsb (fun e => search_tag {| s_name := tag; s_attrs := []; s_string := Some label |} (snd e))
          (descendants [] page) = false ->
  PyStr.truthy label = true ->
  ~ has_cell tag label page.
Proof.
  intros Hex Hl (p & attrs & cs & Hin & Hs).
  assert (Ht : existsb (fun e => search_tag {| s_name := tag; s_attrs := []; s_string := Some label |} (snd e))
          (descendants [] page) = true); [| congruence].
  apply existsb_exists. exists (p, Tag tag attrs cs). split; [exact Hin |].
  cbn [snd]. unfold search_tag. cbn [s_name s_attrs s_string forallb].
  rewrite String.eqb_refl, Hl. unfold matches_string. rewrite Hs.
  rewrite String.eqb_refl. reflexivity.
Qed.

Lemma add_row_cells related_persons row :
  find_all (by_name "td") row <> [] ->
  add_row related_persons row = related_persons ++ [reversed_cells_name row].
Proof.
  intros Hne. unfold add_row, reversed_cells_name.
  destruct (find_all (by_name "td") row) as [| c cols] eqn:Hc; [congruence |].
  rewrite map_rev. reflexivity.
Qed.

(** C4. On a page whose only "Related Persons" table has a header row and
    three data rows, [extract_related_persons] returns two names, those of
    the first and of the second data row; the header row and the third data
    row give nothing.  A name is made of the texts of the row's cells, last
    column first, joined by single spaces. *)
Theorem related_persons_first_two_rows page table header r1 r2 r3 :
  find_all related_persons_tables (doc page) = [table] ->
  find_all (by_name "tr") table = [header; r1; r2; r3] ->
  find_all (by_name "td") r1 <> [] ->
  find_all (by_name "td") r2 <> [] ->
  extract_related_persons page
  = [reversed_cells_name r1; reversed_cells_name r2].
Proof.
  intros Htables Hrows H1 H2.
  unfold extract_related_persons. rewrite Htables. simpl.
  unfold add_table. rewrite Hrows. unfold slice_1_3. simpl.
  rewrite (add_row_cells [] r1 H1), (add_row_cells _ r2 H2). reflexivity.
Qed.

(** The page of [page_related] has three data rows: John Doe, Jane Roe and
    Jim Poe. *)
Lemma related_persons_first_two_rows_witness :
  exists r1 r2,
    extract_related_persons Examples.page_related
    = [reversed_cells_name r1; reversed_cells_name r2]
    /\ reversed_cells_name r1 = "John Doe"
    /\ reversed_cells_name r2 = "Jane Roe".
Proof.
  eexists _, _. split.
  - eapply related_persons_first_two_rows.
    + reflexivity.
    + reflexivity.
    + discriminate.
    + discriminate.
  - split; reflexivity.
Defined.

(** C8. On a page without any [th] cell whose string is exactly
    "Phone Number of Issuer", [extract_phone_number] returns "Not Found". *)
Theorem phone_number_not_found page :
  ~ has_cell "th" "Phone Number of Issuer" page ->
  extract_phone_number page = Ok "Not Found".
Proof.
  intros Hno. unfold extract_phone_number, phone_header.
  rewrite no_cell_find_None; [reflexivity | reflexivity | exact Hno].
Qed.

Lemma phone_number_not_found_witness :
  extract_phone_number Examples.page_related = Ok "Not Found".
Proof.
  apply phone_number_not_found.
  apply not_has_cell; reflexivity.
Defined.

(** C9. When the [td] cell "Total Offering Amount" or the [td] cell
    "Total Amount Sold" is missing, [extract_offering_amounts] returns
    "Not Found" for both amounts. *)
Theorem offering_amounts_not_found page :
  ~ has_cell "td" "Total Offering Amount" page
  \/ ~ has_cell "td" "Total Amount Sold" page ->
  extract_offering_amounts page = Ok ("Not Found", "Not Found").
Proof.
  intros [Hno | Hno]; unfold extract_offering_amounts.
  - unfold offering_label. rewrite no_cell_find_None; [reflexivity | reflexivity | exact Hno].
  - unfold sold_label at 1. rewrite (no_cell_find_None "td" "Total Amount Sold");
      [| reflexivity | exact Hno].
    destruct (find offering_label (doc page)); reflexivity.
Qed.

Lemma offering_amounts_not_found_witness :
  has_cell "td" "Total Offering Amount" Examples.page_no_sold
  /\ extract_offering_amounts Examples.page_no_sold = Ok ("Not Found", "Not Found").
Proof.
  split.
  - eexists _, _, _. split; [do 4 right; left; reflexivity | reflexivity].
  - apply offering_amounts_not_found. right.
    apply not_has_cell; reflexivity.
Defined.

(** The header cell is one of the [th] cells below its grandparent, so
    [row.find_all('th').index(section)] finds it. *)
Lemma section_in_row page section section_parent row :
  find phone_header (doc page) = Some section ->
  parent page section = Some section_parent ->
  parent page section_parent = Some row ->
  In section (find_all (by_name "th") row).
Proof.
  intros Hfind Hp1 Hp2.
  apply find_Some in Hfind as [Hin Hst].
  destruct section as [p n]. simpl in Hin, Hst.
  apply search_tag_by_string in Hst as (attrs & cs & -> & _); [| reflexivity].
  apply elem_of_descendants in Hin as (s & _ & Hs & Hat). simpl in Hs. subst s.
  apply parent_Some in Hp1 as (i & Hpi & Hat1).
  apply parent_Some in Hp2 as (j & Hpj & Hat2).
  simpl in Hpi. destruct row as [q r]. simpl in Hpj, Hat2.
  unfold find_all. apply in_select. split.
  - simpl. apply elem_of_descendants. exists [j; i]. split; [discriminate |].
    split.
    + rewrite Hpi, Hpj, <- app_assoc. reflexivity.
    + rewrite Hpi, Hpj, <- app_assoc, at_path_app, Hat2 in Hat. exact Hat.
  - cbn [snd]. rewrite search_tag_by_name. reflexivity.
Qed.

(** C10. Let [row] be what [extract_phone_number] calls the row of the
    header cell.  When [row] has no [td] cell at all, the fallback [tds[-1]]
    raises [IndexError]; when it has one, the function returns the text of
    one of these cells.  [page_phone_no_cells] is a page of the first
    kind. *)
Theorem phone_number_last_cell_fallback page section section_parent row :
  find phone_header (doc page) = Some section ->
  parent page section = Some section_parent ->
  parent page section_parent = Some row ->
  (find_all (by_name "td") row = [] ->
   extract_phone_number page = Raise IndexError)
  /\ (find_all (by_name "td") row <> [] ->
      exists td, In td (find_all (by_name "td") row)
                 /\ extract_phone_number page = Ok (get_text_strip (snd td))).
Proof.
  intros Hfind Hp1 Hp2.
  pose proof (section_in_row _ _ _ _ Hfind Hp1 Hp2) as Hin.
  destruct section as [p n].
  apply index_of_elem in Hin as (index & Hidx & _).
  unfold extract_phone_number. rewrite Hfind, Hp1. simpl. rewrite Hp2. simpl.
  rewrite Hidx. split.
  - intros ->. simpl. reflexivity.
  - intros Hne. destruct (index <? length _)%nat eqn:Hlt.
    + apply Nat.ltb_lt, lookup_lt_is_Some_2 in Hlt as [td Htd].
      exists td. split.
      * apply list_elem_of_In. eapply list_elem_of_lookup_2. exact Htd.
      * unfold elem in *. rewrite Htd. reflexivity.
    + unfold last_item.
      destruct (last (find_all (by_name "td") row)) as [td |] eqn:Hlast.
      * exists td. split; [| reflexivity].
        apply list_elem_of_In. apply last_Some_elem_of. exact Hlast.
      * apply last_None in Hlast. congruence.
Qed.

Lemma phone_number_last_cell_fallback_witness :
  extract_phone_number Examples.page_phone_no_cells = Raise IndexError.
Proof.
  edestruct (phone_number_last_cell_fallback Examples.page_phone_no_cells) as [H _].
  - reflexivity.
  - reflexivity.
  - reflexivity.
  - apply H. reflexivity.
Defined.

(** C5, as the code has it.  Both label cells exist and the cell after the
    offering label is blank.  The marker is the first [span] of class
    [FormData] after the [td] sibling of the label.  When the stripped text
    of the marker is "X", the variable [total_offering_amount] is
    "Indefinite"; the function returns it, with the amount sold, when a cell
    follows the label of the amount sold, and raises [AttributeError] when
    none does.  When there is no marker, or its stripped text is not "X", no
    value is assigned to the variable and the function returns nothing: it
    raises, [UnboundLocalError] when the other look-ups succeed. *)
Theorem indefinite_offering_checkbox page offering_section sold_section next_td :
  find offering_label (doc page) = Some offering_section ->
  find sold_label (doc page) = Some sold_section ->
  find_next page (by_name "td") offering_section = Some next_td ->
  get_text_strip (snd next_td) = "" ->
  let marker :=
    find_next_sibling page (by_name "td") offering_section
      ≫= find_next page checkbox_marker in
  (forall m, marker = Some m -> PyStr.strip (text (snd m)) = "X" ->
     offering_amount_variable page offering_section = Ok (Some "Indefinite")
     /\ (forall sold_td,
           find_next page (by_name "td") sold_section = Some sold_td ->
           extract_offering_amounts page
           = Ok ("Indefinite", get_text_strip (snd sold_td)))
     /\ (find_next page (by_name "td") sold_section = None ->
         extract_offering_amounts page = Raise AttributeError))
  /\ (marker = None
      \/ (exists m, marker = Some m /\ PyStr.strip (text (snd m)) <> "X") ->
     (forall v, offering_amount_variable page offering_section <> Ok (Some v))
     /\ is_Ok (extract_offering_amounts page) = false
     /\ (is_Some (find_next_sibling page (by_name "td") offering_section) ->
         is_Some (find_next page (by_name "td") sold_section) ->
         offering_amount_variable page offering_section = Ok None
         /\ extract_offering_amounts page = Raise UnboundLocalError)).
Proof.
  intros Hoff Hsold Hnext Hblank marker.
  assert (Hvar : offering_amount_variable page offering_section
    = match find_next_sibling page (by_name "td") offering_section with
      | None => Raise AttributeError
      | Some td =>
          match find_next page checkbox_marker td with
          | Some x =>
              if String.eqb (PyStr.strip (text (snd x))) "X"
              then Ok (Some "Indefinite") else Ok None
          | None => Ok None
          end
      end).
  { unfold offering_amount_variable. rewrite Hnext. simpl.
    rewrite Hblank. simpl. rewrite Hoff. simpl.
    destruct (find_next_sibling page (by_name "td") offering_section); reflexivity. }
  assert (Hres : extract_offering_amounts page
    = (v ← offering_amount_variable page offering_section;
       sold_td ← not_None (find_next page (by_name "td") sold_section);
       total ← read_local v;
       Ok (total, get_text_strip (snd sold_td)))).
  { unfold extract_offering_amounts. rewrite Hoff, Hsold. reflexivity. }
  subst marker. split.
  - intros m Hm HX. rewrite Hres, Hvar.
    destruct (find_next_sibling page (by_name "td") offering_section) as [td |];
      [| discriminate].
    simpl in Hm. rewrite Hm, HX. simpl. split; [reflexivity |]. split.
    + intros sold_td ->. reflexivity.
    + intros ->. reflexivity.
  - intros Hno. rewrite Hres, Hvar.
    destruct (find_next_sibling page (by_name "td") offering_section) as [td |].
    + simpl in Hno.
      assert (Hnone : match find_next page checkbox_marker td with
              | Some x =>
                  if String.eqb (PyStr.strip (text (snd x))) "X"
                  then Ok (Some "Indefinite") else Ok None
              | None => @Ok (option string) None
              end = Ok None).
      { destruct Hno as [-> | (m & -> & Hm)]; [reflexivity |].
        apply String.eqb_neq in Hm. rewrite Hm. reflexivity. }
      rewrite Hnone. split; [congruence |]. simpl. split.
      * destruct (find_next page (by_name "td") sold_section); reflexivity.
      * intros _ [sold_td ->]. split; reflexivity.
    + split; [congruence |]. split; [reflexivity |].
      intros [x Hx]. discriminate.
Qed.

Lemma indefinite_offering_checkbox_witness :
  extract_offering_amounts Examples.page_blank_ticked = Ok ("Indefinite", "$250")
  /\ extract_offering_amounts Examples2.page_ticked_sold_last = Raise AttributeError
  /\ extract_offering_amounts Examples.page_blank_unticked = Raise UnboundLocalError.
Proof.
  split; [| split].
  - edestruct (indefinite_offering_checkbox Examples.page_blank_ticked) as [H _].
    + reflexivity.
    + reflexivity.
    + reflexivity.
    + reflexivity.
    + edestruct H as (_ & Hres & _); [reflexivity | reflexivity |].
      apply (Hres _ eq_refl).
  - edestruct (indefinite_offering_checkbox Examples2.page_ticked_sold_last) as [H _].
    + reflexivity.
    + reflexivity.
    + reflexivity.
    + reflexivity.
    + edestruct H as (_ & _ & Hres); [reflexivity | reflexivity |].
      apply Hres. reflexivity.
  - edestruct (indefinite_offering_checkbox Examples.page_blank_unticked) as [_ H].
    + reflexivity.
    + reflexivity.
    + reflexivity.
    + reflexivity.
    + edestruct H as (_ & _ & Hres).
      * right. eexists. split; [reflexivity | discriminate].
      * apply Hres; eexists; reflexivity.
Defined.

(** C5 as stated fails: on [page_ticked_sold_last] both labels exist, the
    cell after the offering label is blank and the marker is "X", and yet
    nothing is reported, since no cell follows the label of the amount
    sold. *)
Lemma ticked_but_nothing_reported :
  exists offering_section sold_section next_td m,
    find offering_label (doc Examples2.page_ticked_sold_last) = Some offering_section
    /\ find sold_label (doc Examples2.page_ticked_sold_last) = Some sold_section
    /\ find_next Examples2.page_ticked_sold_last (by_name "td") offering_section
       = Some next_td
    /\ get_text_strip (snd next_td) = ""
    /\ find_next_sibling Examples2.page_ticked_sold_last (by_name "td") offering_section
         ≫= find_next Examples2.page_ticked_sold_last checkbox_marker
       = Some m
    /\ PyStr.strip (text (snd m)) = "X"
    /\ extract_offering_amounts Examples2.page_ticked_sold_last
       = Raise AttributeError.
Proof.
  eexists _, _, _, _.
  split; [reflexivity |]. split; [reflexivity |]. split; [reflexivity |].
  split; [reflexivity |]. split; [reflexivity |]. split; reflexivity.
Qed.

End ExtractFacts.

(** ** The pipeline *)

Module PipelineFacts.
Import Effects Pipeline Claims.

Example lstrip_zeros_cik : PyStr.lstrip_zeros "0001234567" = "1234567".
Proof. reflexivity. Qed.

Example remove_hyphens_adsh :
  PyStr.remove_hyphens "0001234567-24-000001" = "000123456724000001".
Proof. reflexivity. Qed.

Example clean_up_world_ok :
  run (clean_up Examples.world_ok Examples.one_hit) []
  = (Ok [Examples.record_full],
     [EvGet "https://www.sec.gov/Archives/edgar/data/1234567/000123456724000001/xslFormDX01/primary_doc.xml" []]).
Proof. vm_compute. reflexivity. Qed.

Example make_result_no_source :
  make_result empty_source
  = <["Edgar" := "No links available"]>
    (<["ADSH" := "N/A"]>
    (<["Business Location(s)" := ""]>
    (<["File Date" := "Unknown"]>
    (<["Company Name" := ""]>
    (<["CIK" := ""]> ∅))))).
Proof. reflexivity. Qed.

Lemma filter_idem {A} (f : A -> bool) (l : list A) :
  List.filter f (List.filter f l) = List.filter f l.
Proof.
  induction l as [| a l IH]; [reflexivity |].
  simpl. destruct (f a) eqn:Hfa; [| exact IH].
  simpl. rewrite Hfa, IH. reflexivity.
Qed.

Lemma filter_sublist {A} (f : A -> bool) (l : list A) :
  sublist (List.filter f l) l.
Proof.
  induction l as [| a l IH]; [constructor |].
  simpl. destruct (f a); constructor; exact IH.
Qed.

Lemma fold_left_snoc {A B} (g : A -> B) (l : list A) (acc : list B) :
  fold_left (fun results it => results ++ [g it]) l acc = acc ++ List.map g l.
Proof.
  revert acc. induction l as [| a l IH]; intros acc; simpl.
  - rewrite app_nil_r. reflexivity.
  - rewrite IH, <- app_assoc. reflexivity.
Qed.

(** The first loop builds one dictionary per hit, in order. *)
Lemma initial_results_map response :
  initial_results response = List.map make_result (hit_sources response).
Proof.
  unfold initial_results, hit_sources.
  destruct (hits response) as [h |]; [| reflexivity].
  destruct (inner_hits h) as [items |]; [| reflexivity].
  simpl. rewrite (fold_left_snoc (fun it => make_result (source_of it))).
  simpl. rewrite List.map_map. reflexivity.
Qed.

Lemma enrich_Ok page company r :
  enrich page company = Ok r ->
  exists phone offered raised,
    Extract.extract_phone_number page = Ok phone
    /\ Extract.extract_offering_amounts page = Ok (offered, raised)
    /\ r = <["Total Offering Amount / Amount Raised" :=
               (offered ++ " / " ++ raised)%string]>
           (<["Phone Number" := phone]>
           (<["Related Persons" :=
                PyStr.join ", " (Extract.extract_related_persons page)]> company)).
Proof.
  unfold enrich.
  destruct (Extract.extract_phone_number page) as [phone | e]; [| discriminate].
  destruct (Extract.extract_offering_amounts page) as [[offered raised] | e];
    [| discriminate].
  simpl. intros H. injection H as <-. exists phone, offered, raised. auto.
Qed.

Lemma run_add_and_edit_one w company t r t' :
  run (add_and_edit_one w company) t = (Ok r, t') ->
  exists link resp,
    newLink company = Ok link
    /\ http w t link [] = inr resp
    /\ enrich (lxml_of w (text resp)) company = Ok r
    /\ t' = t ++ [EvGet link []].
Proof.
  unfold add_and_edit_one. simpl.
  destruct (newLink company) as [link | e]; [| discriminate]. simpl.
  destruct (http w t link []) as [e | resp] eqn:Hhttp; [discriminate |]. simpl.
  destruct (enrich _ company) as [r' | e] eqn:He; [| discriminate].
  intros H. injection H as <- <-. exists link, resp. auto.
Qed.

Lemma run_bind {A B} (m : M A) (k : A -> M B) t :
  run (m ≫= k) t
  = match run m t with
    | (Ok a, t') => run (k a) t'
    | (Raise e, t') => (Raise e, t')
    end.
Proof. reflexivity. Qed.

Lemma run_ret {A} (a : A) t : run (mret a) t = (Ok a, t).
Proof. reflexivity. Qed.

(** Enrichment keeps the records in order, one page each. *)
Lemma run_add_and_edit w results : forall t enriched t',
  run (add_and_edit w results) t = (Ok enriched, t') ->
  Forall2 (fun r r' => exists page, enrich page r = Ok r') results enriched.
Proof.
  induction results as [| company rest IH]; intros t enriched t'.
  - simpl. intros H. injection H as <- _. constructor.
  - cbn [add_and_edit]. rewrite run_bind.
    destruct (run (add_and_edit_one w company) t) as [[c' | e] t1] eqn:H1;
      [| discriminate].
    rewrite run_bind.
    destruct (run (add_and_edit w rest) t1) as [[rest' | e] t2] eqn:H2;
      [| discriminate].
    rewrite run_ret. intros H. injection H as <- _.
    apply run_add_and_edit_one in H1 as (link & resp & _ & _ & He & _).
    constructor; [eauto |]. eapply IH. exact H2.
Qed.

Lemma run_clean_up w response t out t' :
  run (clean_up w response) t = (Ok out, t') ->
  exists enriched,
    run (add_and_edit w (initial_results response)) t = (Ok enriched, t')
    /\ out = List.filter has_related_persons (List.map pop_identifiers enriched).
Proof.
  unfold clean_up. rewrite run_bind.
  destruct (run (add_and_edit w (initial_results response)) t)
    as [[enriched | e] t1]; [| discriminate].
  rewrite run_ret. intros H. injection H as <- <-. exists enriched. auto.
Qed.

(** What [clean_up] returns: the enriched records, one per hit and in the
    order of the hits, without their identifiers, filtered. *)
Lemma clean_up_enriched w response t out t' :
  run (clean_up w response) t = (Ok out, t') ->
  exists enriched,
    Forall2 (fun src r => exists page, enrich page (make_result src) = Ok r)
            (hit_sources response) enriched
    /\ out = List.filter has_related_persons (List.map pop_identifiers enriched).
Proof.
  intros Hrun. apply run_clean_up in Hrun as (enriched & Hadd & ->).
  exists enriched. split; [| reflexivity].
  apply run_add_and_edit in Hadd. rewrite initial_results_map in Hadd.
  apply Forall2_fmap_l in Hadd. exact Hadd.
Qed.

Lemma has_related_persons_spec r :
  has_related_persons r = true
  <-> exists s, r !! "Related Persons" = Some s /\ s <> "".
Proof.
  unfold has_related_persons. destruct (r !! "Related Persons") as [s |].
  - destruct s as [| c s]; simpl.
    + split; [discriminate |]. intros (s' & [= <-] & Hne). congruence.
    + split; [| reflexivity]. intros _. eexists. split; [reflexivity | discriminate].
  - split; [discriminate |]. intros (s & Hs & _). discriminate.
Qed.

Lemma lookup_Edgar_make_result src :
  make_result src !! "Edgar" = Some (edgar_links src).
Proof. unfold make_result. apply lookup_insert_eq. Qed.

Lemma lookup_CIK_make_result src :
  make_result src !! "CIK"
  = Some (PyStr.join ", " (List.map PyStr.lstrip_zeros (default [] (ciks src)))).
Proof.
  unfold make_result. rewrite !lookup_insert_ne by discriminate.
  apply lookup_insert_eq.
Qed.

Lemma lookup_ADSH_make_result src :
  make_result src !! "ADSH"
  = Some (PyStr.remove_hyphens (default "N/A" (adsh src))).
Proof.
  unfold make_result. rewrite !lookup_insert_ne by discriminate.
  apply lookup_insert_eq.
Qed.

Lemma pop_enriched_Edgar page company r :
  enrich page company = Ok r ->
  pop_identifiers r !! "Edgar" = company !! "Edgar".
Proof.
  intros (phone & offered & raised & _ & _ & ->)%enrich_Ok.
  unfold pop_identifiers.
  rewrite !lookup_delete_ne, !lookup_insert_ne by discriminate.
  reflexivity.
Qed.

(** C7. For a hit without the key [ciks], or without a non-empty [adsh],
    the field "Edgar" of the record is "No links available", when the
    record is built and after enrichment and the removal of the
    identifiers. *)
Theorem no_links_available src :
  lacks_ciks_adsh src ->
  make_result src !! "Edgar" = Some "No links available"
  /\ forall page r,
       enrich page (make_result src) = Ok r ->
       pop_identifiers r !! "Edgar" = Some "No links available".
Proof.
  intros Hlack.
  assert (Hlinks : edgar_links src = "No links available").
  { unfold edgar_links, has_ciks_and_adsh.
    destruct Hlack as [-> | [-> | ->]]; [reflexivity | |];
      destruct (ciks src); reflexivity. }
  split.
  - rewrite lookup_Edgar_make_result, Hlinks. reflexivity.
  - intros page r He. rewrite (pop_enriched_Edgar _ _ _ He).
    rewrite lookup_Edgar_make_result, Hlinks. reflexivity.
Qed.

Lemma no_links_available_witness :
  make_result Examples.hit_no_ciks !! "Edgar" = Some "No links available"
  /\ forall page r,
       enrich page (make_result Examples.hit_no_ciks) = Ok r ->
       pop_identifiers r !! "Edgar" = Some "No links available".
Proof. apply no_links_available. left. reflexivity. Defined.

(** C1, as the code has it.  For a hit with ciks ["0001234567"] and adsh
    "0001234567-24-000001", the field "Edgar" of the record is an anchor
    element whose [href] is the URL with the leading zeros and the hyphens
    removed, and the URL that [add_and_edit] requests is that URL itself. *)
Theorem link_for_1234567 src :
  ciks src = Some ["0001234567"] ->
  adsh src = Some "0001234567-24-000001" ->
  make_result src !! "Edgar"
  = Some ("<a href=" ++ dquote
          ++ "https://www.sec.gov/Archives/edgar/data/1234567/000123456724000001/xslFormDX01/primary_doc.xml"
          ++ dquote ++ " target=" ++ dquote ++ "_blank" ++ dquote
          ++ ">Link</a>")%string
  /\ newLink (make_result src)
     = Ok "https://www.sec.gov/Archives/edgar/data/1234567/000123456724000001/xslFormDX01/primary_doc.xml".
Proof.
  intros Hciks Hadsh. split.
  - rewrite lookup_Edgar_make_result.
    unfold edgar_links, has_ciks_and_adsh. rewrite Hciks, Hadsh. reflexivity.
  - unfold newLink, getitem.
    rewrite lookup_CIK_make_result, lookup_ADSH_make_result, Hciks, Hadsh.
    reflexivity.
Qed.

Lemma link_for_1234567_witness :
  make_result Examples.hit_1234567 !! "Edgar"
  = Some ("<a href=" ++ dquote
          ++ "https://www.sec.gov/Archives/edgar/data/1234567/000123456724000001/xslFormDX01/primary_doc.xml"
          ++ dquote ++ " target=" ++ dquote ++ "_blank" ++ dquote
          ++ ">Link</a>")%string
  /\ newLink (make_result Examples.hit_1234567)
     = Ok "https://www.sec.gov/Archives/edgar/data/1234567/000123456724000001/xslFormDX01/primary_doc.xml".
Proof. apply link_for_1234567; reflexivity. Defined.

(** C1 as stated fails: the link field of the record is not the bare
    URL. *)
Lemma link_for_1234567_is_not_the_bare_url :
  make_result Examples.hit_1234567 !! "Edgar"
  <> Some "https://www.sec.gov/Archives/edgar/data/1234567/000123456724000001/xslFormDX01/primary_doc.xml".
Proof. vm_compute. discriminate. Qed.

Lemma Forall2_In_r {A B} (P : A -> B -> Prop) l k y :
  Forall2 P l k -> In y k -> exists x, In x l /\ P x y.
Proof.
  induction 1 as [| x y' l k HP _ IH]; simpl; [tauto |].
  intros [-> | Hin]; [eauto |].
  destruct (IH Hin) as (x' & Hx' & HP'). eauto.
Qed.

Lemma dom_pop_enriched page src r :
  enrich page (make_result src) = Ok r ->
  dom (pop_identifiers r) = output_fields.
Proof.
  intros (phone & offered & raised & _ & _ & ->)%enrich_Ok.
  unfold pop_identifiers, make_result, output_fields.
  rewrite !(delete_insert_ne _ "CIK") by discriminate.
  rewrite delete_insert_eq, delete_empty.
  rewrite !(delete_insert_ne _ "ADSH") by discriminate.
  rewrite delete_insert_eq.
  rewrite !(delete_insert_ne _ "ADSH") by discriminate.
  rewrite delete_empty, !dom_insert_L, dom_empty_L.
  apply set_eq. intros k.
  rewrite !elem_of_union, !elem_of_singleton, elem_of_empty. tauto.
Qed.

(** C3, as the code has it.  Every record of the final list has exactly
    seven fields: "Company Name", "File Date", "Business Location(s)",
    "Edgar", "Related Persons" (the names joined by ", "), "Phone Number"
    and one field "Total Offering Amount / Amount Raised" that holds both
    amounts separated by " / ".  "CIK" and "ADSH" are removed. *)
Theorem output_record_shape w response t out t' r :
  run (clean_up w response) t = (Ok out, t') ->
  In r out ->
  dom r = output_fields
  /\ r !! "CIK" = None /\ r !! "ADSH" = None
  /\ exists page phone offered raised,
       Extract.extract_phone_number page = Ok phone
       /\ Extract.extract_offering_amounts page = Ok (offered, raised)
       /\ r !! "Related Persons"
          = Some (PyStr.join ", " (Extract.extract_related_persons page))
       /\ r !! "Phone Number" = Some phone
       /\ r !! "Total Offering Amount / Amount Raised"
          = Some (offered ++ " / " ++ raised)%string.
Proof.
  intros Hrun Hin.
  apply clean_up_enriched in Hrun as (enriched & Hall & ->).
  apply filter_In in Hin as [Hin _].
  apply in_map_iff in Hin as (r' & <- & Hin).
  destruct (Forall2_In_r _ _ _ _ Hall Hin) as (src & _ & page & He).
  split; [exact (dom_pop_enriched _ _ _ He) |].
  split; [unfold pop_identifiers; rewrite lookup_delete_ne by discriminate;
          apply lookup_delete_eq |].
  split; [unfold pop_identifiers; apply lookup_delete_eq |].
  apply enrich_Ok in He as (phone & offered & raised & Hp & Ho & ->).
  exists page, phone, offered, raised.
  unfold pop_identifiers.
  split; [exact Hp |]. split; [exact Ho |].
  rewrite !lookup_delete_ne by discriminate.
  split; [| split].
  - rewrite !lookup_insert_ne by discriminate. apply lookup_insert_eq.
  - rewrite lookup_insert_ne by discriminate. apply lookup_insert_eq.
  - apply lookup_insert_eq.
Qed.

Lemma output_record_shape_witness :
  dom Examples.record_full = output_fields
  /\ Examples.record_full !! "CIK" = None /\ Examples.record_full !! "ADSH" = None
  /\ exists page phone offered raised,
       Extract.extract_phone_number page = Ok phone
       /\ Extract.extract_offering_amounts page = Ok (offered, raised)
       /\ Examples.record_full !! "Related Persons"
          = Some (PyStr.join ", " (Extract.extract_related_persons page))
       /\ Examples.record_full !! "Phone Number" = Some phone
       /\ Examples.record_full !! "Total Offering Amount / Amount Raised"
          = Some (offered ++ " / " ++ raised)%string.
Proof.
  eapply (output_record_shape Examples.world_ok Examples.one_hit [] [Examples.record_full]).
  - vm_compute. reflexivity.
  - left. reflexivity.
Defined.

Lemma http_error_msg_4xx_5xx r :
  (400 <= status_code r < 600)%N -> exists msg, http_error_msg r = Some msg.
Proof.
  intros Hr. unfold http_error_msg.
  destruct ((400 <=? status_code r) && (status_code r <? 500))%N eqn:H4;
    [eauto |].
  destruct ((500 <=? status_code r) && (status_code r <? 600))%N eqn:H5;
    [eauto |].
  exfalso.
  apply andb_false_iff in H4, H5.
  rewrite N.leb_gt, N.ltb_ge in H4, H5. lia.
Qed.

Lemma run_fetch_failure w start_date end_date t :
  let reply := http w t URL (search_params start_date end_date) in
  request_fails reply ->
  run (fetch_sec_filings w start_date end_date) t
  = (Ok None,
     t ++ [EvGet URL (search_params start_date end_date);
           EvError ("Request failed: " ++ failure_message reply)]).
Proof.
  unfold request_fails, failure_message, fetch_sec_filings,
    try_except_RequestException.
  cbn [run]. rewrite run_bind. unfold requests_get at 1. cbn [run].
  destruct (http w t URL (search_params start_date end_date)) as [e | r].
  - intros _. simpl. rewrite <- app_assoc. reflexivity.
  - intros (msg & Hmsg)%http_error_msg_4xx_5xx.
    rewrite run_bind. unfold raise_for_status.
    rewrite Hmsg. simpl. rewrite <- app_assoc. reflexivity.
Qed.

(** C6, as the code has it.  When the search request fails with a network
    error, or with a 4xx or 5xx status, [fetch_sec_filings] has sent exactly
    one request, reports "Request failed: " followed by the message of the
    error, and returns [None]; [main] then writes its empty-state
    message. *)
Theorem search_failure_single_attempt w start_date end_date t reply :
  http w t URL (search_params start_date end_date) = reply ->
  request_fails reply ->
  run (fetch_sec_filings w start_date end_date) t
  = (Ok None,
     t ++ [EvGet URL (search_params start_date end_date);
           EvError ("Request failed: " ++ failure_message reply)])
  /\ run (check_for_filings w start_date end_date) t
     = (Ok tt,
        t ++ [EvGet URL (search_params start_date end_date);
              EvError ("Request failed: " ++ failure_message reply);
              EvWrite "No filings found or an error occurred."]).
Proof.
  intros <- Hfail. pose proof (run_fetch_failure _ _ _ _ Hfail) as Hrun.
  cbv zeta in Hrun.
  split; [exact Hrun |].
  unfold check_for_filings. rewrite run_bind, Hrun. simpl.
  rewrite <- app_assoc. reflexivity.
Qed.

Lemma search_failure_single_attempt_witness :
  run (fetch_sec_filings Examples.world_503 "2024-01-01" "2024-01-31") []
  = (Ok None,
     [EvGet URL (search_params "2024-01-01" "2024-01-31");
      EvError "Request failed: 503 Server Error: Service Unavailable for url: https://efts.sec.gov/LATEST/search-index"])
  /\ run (check_for_filings Examples.world_503 "2024-01-01" "2024-01-31") []
     = (Ok tt,
        [EvGet URL (search_params "2024-01-01" "2024-01-31");
         EvError "Request failed: 503 Server Error: Service Unavailable for url: https://efts.sec.gov/LATEST/search-index";
         EvWrite "No filings found or an error occurred."]).
Proof.
  apply (search_failure_single_attempt Examples.world_503
           "2024-01-01" "2024-01-31" []
           (inr (Examples.reply 503 "Service Unavailable" URL))).
  - reflexivity.
  - vm_compute. split; congruence.
Defined.

(** C6 as stated fails for a status that is neither 2xx nor 4xx/5xx: the
    body is parsed, nothing is reported and the records are returned. *)
Lemma status_300_is_not_a_failure :
  http Examples.world_300 [] URL (search_params "2024-01-01" "2024-01-31")
  = inr (Examples.reply 300 "Multiple Choices" URL)
  /\ run (fetch_sec_filings Examples.world_300 "2024-01-01" "2024-01-31") []
     = (Ok (Some [Examples.record_full]),
        [EvGet URL (search_params "2024-01-01" "2024-01-31");
         EvGet "https://www.sec.gov/Archives/edgar/data/1234567/000123456724000001/xslFormDX01/primary_doc.xml" []]).
Proof. split; vm_compute; reflexivity. Qed.

(** C3 as stated fails: the record returned for [page_full] has seven
    fields, and none of them holds the offering amount alone. *)
Lemma output_record_has_one_amount_field :
  fst (run (clean_up Examples.world_ok Examples.one_hit) [])
  = Ok [Examples.record_full]
  /\ Extract.extract_offering_amounts Examples.page_full = Ok ("$1,000", "$250")
  /\ size Examples.record_full = 7%nat
  /\ ~ separate_amount_fields Examples.record_full "$1,000" "$250".
Proof.
  split; [vm_compute; reflexivity |].
  split; [vm_compute; reflexivity |].
  split; [vm_compute; reflexivity |].
  intros (k1 & k2 & _ & H1 & _).
  assert (Hall : bool_decide
    (map_Forall (fun (_ : string) (v : string) => v <> "$1,000")
                Examples.record_full) = true)
    by (vm_compute; reflexivity).
  apply bool_decide_eq_true_1 in Hall.
  exact (Hall _ _ H1 eq_refl).
Qed.
End PipelineFacts.

(** ** More on the extractors *)

Module ExtractMore.
Import Soup Extract SoupFacts Claims Notions ExtractFacts.

Lemma at_path_prefix root p q n :
  at_path root (p ++ q) = Some n -> exists m, at_path root p = Some m.
Proof.
  rewrite at_path_app. destruct (at_path root p) as [m |]; [eauto | discriminate].
Qed.

(** An element of the page has a parent. *)
Lemma parent_of_descendant page e :
  In e (descendants [] page) ->
  exists m, parent page e = Some (removelast (fst e), m).
Proof.
  destruct e as [p n]. intros (s & Hne & Hs & Hat)%elem_of_descendants.
  simpl in Hs. subst s. unfold parent. simpl fst.
  destruct p as [| i p]; [congruence |].
  rewrite (app_removelast_last 0%nat (l := i :: p)) in Hat by discriminate.
  apply at_path_prefix in Hat as [m Hm]. rewrite Hm. eauto.
Qed.

Lemma parent_None page q m :
  at_path page q = Some m -> parent page (q, m) = None -> q = [].
Proof.
  intros Hat. unfold parent. simpl fst.
  destruct q as [| i q]; [reflexivity |].
  rewrite (app_removelast_last 0%nat (l := i :: q)) in Hat by discriminate.
  apply at_path_prefix in Hat as [m' ->]. discriminate.
Qed.

(** What [extract_phone_number] does once the header cell is found. *)
Lemma phone_number_cases page section :
  find phone_header (doc page) = Some section ->
  exists section_parent,
    parent page section = Some section_parent
    /\ match parent page section_parent with
       | None =>
           length (fst section) = 1%nat
           /\ extract_phone_number page = Raise AttributeError
       | Some row =>
           (find_all (by_name "td") row = []
            /\ extract_phone_number page = Raise IndexError)
           \/ (exists td, In td (find_all (by_name "td") row)
                          /\ extract_phone_number page
                             = Ok (get_text_strip (snd td)))
       end.
Proof.
  intros Hfind.
  pose proof (find_Some _ _ _ Hfind) as [Hin _]. simpl in Hin.
  destruct (parent_of_descendant _ _ Hin) as [m Hp1].
  exists (removelast (fst section), m). split; [exact Hp1 |].
  destruct (parent page (removelast (fst section), m)) as [row |] eqn:Hp2.
  - pose proof (section_in_row _ _ _ _ Hfind Hp1 Hp2) as Hth.
    destruct section as [p n].
    apply index_of_elem in Hth as (index & Hidx & _).
    unfold extract_phone_number. rewrite Hfind, Hp1. simpl mbind.
    simpl fst in Hp2. rewrite Hp2. simpl mbind. cbn [snd]. rewrite Hidx.
    destruct (find_all (by_name "td") row) as [| td0 tds] eqn:Htds.
    + left. split; reflexivity.
    + right. rewrite <- Htds.
      destruct (index <? length _)%nat eqn:Hlt.
      * apply Nat.ltb_lt, lookup_lt_is_Some_2 in Hlt as [td Htd].
        exists td. split.
        -- apply list_elem_of_In. eapply list_elem_of_lookup_2. exact Htd.
        -- unfold elem in *. rewrite Htd. reflexivity.
      * unfold last_item.
        destruct (last (find_all (by_name "td") row)) as [td |] eqn:Hlast.
        -- exists td. split; [| reflexivity].
           apply list_elem_of_In. apply last_Some_elem_of. exact Hlast.
        -- apply last_None in Hlast. congruence.
  - split.
    + pose proof (parent_Some _ _ _ Hp1) as (i & Hpi & Hat). simpl in Hpi, Hat.
      apply (parent_None _ _ _ Hat) in Hp2.
      rewrite Hpi, Hp2. reflexivity.
    + unfold extract_phone_number. rewrite Hfind, Hp1. simpl mbind.
      rewrite Hp2. reflexivity.
Qed.

(** The exceptions of [extract_phone_number]. *)
Lemma extract_phone_number_raises page e :
  extract_phone_number page = Raise e -> e = AttributeError \/ e = IndexError.
Proof.
  intros Hraise.
  destruct (find phone_header (doc page)) as [section |] eqn:Hfind.
  - destruct (phone_number_cases _ _ Hfind) as (sp & _ & Hcases).
    destruct (parent page sp) as [row |].
    + destruct Hcases as [[_ H] | (td & _ & H)]; rewrite H in Hraise.
      * injection Hraise as <-. auto.
      * discriminate.
    + destruct Hcases as [_ H]. rewrite H in Hraise. injection Hraise as <-. auto.
  - unfold extract_phone_number in Hraise. rewrite Hfind in Hraise. discriminate.
Qed.

(** The exceptions of [extract_offering_amounts]. *)
Lemma extract_offering_amounts_raises page e :
  extract_offering_amounts page = Raise e ->
  e = AttributeError \/ e = UnboundLocalError.
Proof.
  unfold extract_offering_amounts, offering_amount_variable, not_None, read_local.
  repeat (first [ discriminate | intros [= <-]; auto
                | match goal with
                  | |- context [match ?x with _ => _ end] => destruct x; simpl
                  end ]).
Qed.

(** X1. When [extract_phone_number] raises, the header cell was found and
    one of two things happened: the header cell is a child of the document
    itself, so that [section.parent.parent] is [None] ([AttributeError]), or
    the element two levels above the header cell holds no [td] at all
    ([IndexError]).  [list.index] never fails. *)
Theorem phone_number_errors page e :
  extract_phone_number page = Raise e ->
  exists section,
    find phone_header (doc page) = Some section
    /\ ((e = AttributeError /\ length (fst section) = 1%nat)
        \/ (e = IndexError
            /\ exists section_parent row,
                 parent page section = Some section_parent
                 /\ parent page section_parent = Some row
                 /\ find_all (by_name "td") row = [])).
Proof.
  intros Hraise.
  destruct (find phone_header (doc page)) as [section |] eqn:Hfind.
  - exists section. split; [reflexivity |].
    destruct (phone_number_cases _ _ Hfind) as (sp & Hp1 & Hcases).
    destruct (parent page sp) as [row |] eqn:Hp2.
    + destruct Hcases as [[Htds H] | (td & _ & H)]; rewrite H in Hraise.
      * injection Hraise as <-. right. split; [reflexivity |]. eauto.
      * discriminate.
    + destruct Hcases as [Hlen H]. rewrite H in Hraise. injection Hraise as <-.
      left. auto.
  - unfold extract_phone_number in Hraise. rewrite Hfind in Hraise. discriminate.
Qed.

(** X2. An offering amount that [extract_offering_amounts] returns is
    never the empty string: it is "Not Found", "Indefinite", or a cell text
    that is not blank. *)
Theorem offering_amount_not_blank page offered sold :
  extract_offering_amounts page = Ok (offered, sold) -> offered <> "".
Proof.
  unfold extract_offering_amounts.
  destruct (find offering_label (doc page)) as [off |]; [| intros [= <- _]; discriminate].
  destruct (find sold_label (doc page)) as [sld |]; [| intros [= <- _]; discriminate].
  unfold offering_amount_variable.
  destruct (find_next page (by_name "td") off) as [next_td |]; [| discriminate].
  simpl mbind at 1.
  destruct (PyStr.truthy (get_text_strip (snd next_td))) eqn:Hblank; simpl negb; cbv iota.
  - simpl. destruct (find_next page (by_name "td") sld); simpl; [| discriminate].
    intros [= <- _]. intros Heq. rewrite Heq in Hblank. discriminate.
  - destruct (find offering_label (doc page)) as [label |]; simpl; [| discriminate].
    destruct (find_next_sibling page (by_name "td") label) as [td |]; simpl; [| discriminate].
    destruct (find_next page checkbox_marker td) as [x |].
    + destruct (String.eqb _ "X"); simpl.
      * destruct (find_next page (by_name "td") sld); simpl; [| discriminate].
        intros [= <- _]. discriminate.
      * destruct (find_next page (by_name "td") sld); discriminate.
    + simpl. destruct (find_next page (by_name "td") sld); discriminate.
Qed.







(** X4. A "Related Persons" table with a single row, or with none, gives
    no name: the first row is always skipped. *)
Theorem related_persons_header_only page table :
  find_all related_persons_tables (doc page) = [table] ->
  (length (find_all (by_name "tr") table) <= 1)%nat ->
  extract_related_persons page = [].
Proof.
  intros Htables Hrows. unfold extract_related_persons. rewrite Htables. simpl.
  unfold add_table, slice_1_3.
  rewrite drop_ge by exact Hrows. reflexivity.
Qed.

(** X5. When both labels are found and the cell after the offering label
    is not blank, the two amounts are the stripped texts of the cells that
    follow the two labels in the document. *)
Theorem offering_amounts_adjacent_cells page offering_section sold_section
    offering_td sold_td :
  find offering_label (doc page) = Some offering_section ->
  find sold_label (doc page) = Some sold_section ->
  find_next page (by_name "td") offering_section = Some offering_td ->
  get_text_strip (snd offering_td) <> "" ->
  find_next page (by_name "td") sold_section = Some sold_td ->
  extract_offering_amounts page
  = Ok (get_text_strip (snd offering_td), get_text_strip (snd sold_td)).
Proof.
  intros Hoff Hsold Hnext Hne Hsnext.
  assert (Htruthy : PyStr.truthy (get_text_strip (snd offering_td)) = true)
    by (destruct (get_text_strip (snd offering_td)); [congruence | reflexivity]).
  unfold extract_offering_amounts, offering_amount_variable.
  rewrite Hoff, Hsold, Hnext. simpl mbind at 1.
  rewrite Htruthy. simpl. rewrite Hsnext. reflexivity.
Qed.

End ExtractMore.

Module ExtractWitnesses.
Import Soup Extract Claims Notions Examples Examples2 ExtractMore.

Lemma phone_number_errors_witness :
  exists section,
    find phone_header (doc page_phone_no_cells) = Some section
    /\ ((IndexError = AttributeError /\ length (fst section) = 1%nat)
        \/ (IndexError = IndexError
            /\ exists section_parent row,
                 parent page_phone_no_cells section = Some section_parent
                 /\ parent page_phone_no_cells section_parent = Some row
                 /\ find_all (by_name "td") row = [])).
Proof. apply phone_number_errors. reflexivity. Defined.

Lemma offering_amount_not_blank_witness : "$1,000" <> "".
Proof. apply (offering_amount_not_blank page_full "$1,000" "$250"). reflexivity. Defined.

Lemma related_persons_header_only_witness :
  extract_related_persons page_header_only = [].
Proof.
  eapply related_persons_header_only.
  - reflexivity.
  - vm_compute. lia.
Defined.

Lemma offering_amounts_adjacent_cells_witness :
  exists offering_td sold_td : elem,
    extract_offering_amounts page_full
    = Ok (get_text_strip (snd offering_td), get_text_strip (snd sold_td))
    /\ get_text_strip (snd offering_td) = "$1,000"
    /\ get_text_strip (snd sold_td) = "$250".
Proof.
  eexists _, _. split.
  - eapply offering_amounts_adjacent_cells.
    + reflexivity.
    + reflexivity.
    + reflexivity.
    + discriminate.
    + reflexivity.
  - split; reflexivity.
Defined.

End ExtractWitnesses.

(** ** More on the pipeline *)

Module PipelineMore.
Import Effects Pipeline Claims Notions PipelineFacts.

Lemma newLink_is_primary_doc_url company link :
  newLink company = Ok link -> exists cik adsh, link = primary_doc_url cik adsh.
Proof.
  unfold newLink, getitem.
  destruct (company !! "CIK") as [cik |]; [| discriminate].
  destruct (company !! "ADSH") as [adsh |]; [| discriminate].
  simpl. intros [= <-]. eauto.
Qed.

Lemma primary_doc_url_not_URL cik adsh : primary_doc_url cik adsh <> URL.
Proof. unfold primary_doc_url, URL. simpl. discriminate. Qed.

(** One step of the loop: either the record has no identifier fields and
    nothing is sent, or one request is sent to the record's link. *)
Lemma run_add_and_edit_one_trace w company t r t' :
  run (add_and_edit_one w company) t = (r, t') ->
  (exists e, newLink company = Raise e /\ r = Raise e /\ t' = t)
  \/ (exists link, newLink company = Ok link /\ t' = t ++ [EvGet link []]).
Proof.
  unfold add_and_edit_one. rewrite run_bind. unfold lift at 1. cbn [run].
  destruct (newLink company) as [link | e].
  - rewrite run_bind. unfold requests_get. cbn [run].
    destruct (http w t link []) as [err | resp].
    + intros [= <- <-]. right. eauto.
    + unfold lift. cbn [run]. intros [= <- <-]. right. eauto.
  - intros [= <- <-]. left. eauto.
Qed.

(** The requests of [add_and_edit]: the links of a prefix of the records,
    in order; all of them when it returns. *)
Lemma run_add_and_edit_trace w results : forall t r t',
  run (add_and_edit w results) t = (r, t') ->
  exists n links,
    Forall2 (fun company link => newLink company = Ok link)
            (take n results) links
    /\ t' = t ++ List.map (fun link => EvGet link []) links
    /\ (is_Ok r = true -> n = length results).
Proof.
  induction results as [| company rest IH]; intros t r t'.
  - simpl. intros [= <- <-]. exists 0%nat, []. simpl.
    rewrite app_nil_r. repeat split; constructor.
  - cbn [add_and_edit]. rewrite run_bind.
    destruct (run (add_and_edit_one w company) t) as [[c' | e] t1] eqn:H1.
    + apply run_add_and_edit_one_trace in H1 as [(e & _ & [=] & _) | (link & Hl & ->)].
      rewrite run_bind.
      destruct (run (add_and_edit w rest) (t ++ [EvGet link []])) as [[rest' | e] t2] eqn:H2;
        apply IH in H2 as (n & links & Hall & -> & Hn).
      * rewrite run_ret. intros [= <- <-]. exists (S n), (link :: links).
        simpl. rewrite <- app_assoc. split; [constructor; assumption |].
        split; [reflexivity |]. intros _. rewrite Hn; reflexivity.
      * intros [= <- <-]. exists (S n), (link :: links).
        simpl. rewrite <- app_assoc. split; [constructor; assumption |].
        split; [reflexivity | discriminate].
    + intros [= <- <-].
      apply run_add_and_edit_one_trace in H1 as [(e' & _ & _ & ->) | (link & Hl & ->)].
      * exists 0%nat, []. simpl. rewrite app_nil_r.
        split; [constructor |]. split; [reflexivity | discriminate].
      * exists 1%nat, [link]. simpl. rewrite take_0.
        split; [repeat constructor; assumption |].
        split; [reflexivity | discriminate].
Qed.

Lemma remove_hyphens_idem s :
  PyStr.remove_hyphens (PyStr.remove_hyphens s) = PyStr.remove_hyphens s.
Proof.
  induction s as [| c s IH]; [reflexivity |].
  simpl. destruct (Ascii.eqb c "-") eqn:Hc; [exact IH |].
  simpl. rewrite Hc, IH. reflexivity.
Qed.

Lemma lstrip_zeros_no_zero s : starts_with_zero (PyStr.lstrip_zeros s) = false.
Proof.
  unfold PyStr.lstrip_zeros.
  induction s as [| c s IH]; [reflexivity |].
  simpl. destruct (Ascii.eqb c "0") eqn:Hc; [exact IH |].
  simpl. exact Hc.
Qed.

Lemma lstrip_zeros_id s :
  starts_with_zero s = false -> PyStr.lstrip_zeros s = s.
Proof.
  destruct s as [| c s]; [reflexivity |].
  unfold PyStr.lstrip_zeros. simpl. intros ->. reflexivity.
Qed.

Lemma starts_with_zero_app a b :
  starts_with_zero (a ++ b)
  = match a with
    | EmptyString => starts_with_zero b
    | _ => starts_with_zero a
    end.
Proof. destruct a; reflexivity. Qed.

Lemma cik_field_no_zero src : starts_with_zero (cik_field src) = false.
Proof.
  unfold cik_field. destruct (default [] (ciks src)) as [| x l]; [reflexivity |].
  simpl. destruct (List.map PyStr.lstrip_zeros l) as [| y l'] eqn:Hl.
  - apply lstrip_zeros_no_zero.
  - rewrite starts_with_zero_app.
    pose proof (lstrip_zeros_no_zero x) as Hx.
    destruct (PyStr.lstrip_zeros x); [reflexivity | exact Hx].
Qed.

(** The link that [add_and_edit] requests for the record of a hit: cleaning
    the two fields a second time changes nothing. *)
Lemma newLink_make_result src :
  newLink (make_result src) = Ok (detail_url_of src).
Proof.
  unfold newLink, getitem.
  rewrite lookup_CIK_make_result, lookup_ADSH_make_result. simpl.
  unfold detail_url_of. fold (cik_field src). fold (adsh_field src).
  rewrite (lstrip_zeros_id _ (cik_field_no_zero src)).
  unfold adsh_field. rewrite remove_hyphens_idem. reflexivity.
Qed.

Lemma links_of_hits (srcs : list source) : forall links,
  Forall2 (fun company link => newLink company = Ok link)
          (List.map make_result srcs) links ->
  links = List.map detail_url_of srcs.
Proof.
  induction srcs as [| src srcs IH]; intros links Hall; simpl in Hall.
  - inversion Hall. reflexivity.
  - inversion Hall as [| c l cs ls Hl Hrest]; subst.
    rewrite newLink_make_result in Hl. injection Hl as <-.
    simpl. f_equal. apply IH. exact Hrest.
Qed.

(** One step of the loop on the record of a hit: the request to the detail
    URL of the hit, then the enrichment from the page served. *)
Lemma run_add_and_edit_one_hit w src t :
  run (add_and_edit_one w (make_result src)) t
  = match http w t (detail_url_of src) [] with
    | inl e =>
        (Raise (RequestException e), t ++ [EvGet (detail_url_of src) []])
    | inr resp =>
        (enrich (lxml_of w (text resp)) (make_result src),
         t ++ [EvGet (detail_url_of src) []])
    end.
Proof.
  unfold add_and_edit_one. rewrite run_bind, newLink_make_result.
  unfold lift at 1. cbn [run]. rewrite run_bind. unfold requests_get. cbn [run].
  destruct (http w t (detail_url_of src) []); reflexivity.
Qed.

(** [add_and_edit] returns exactly when every request and every extractor
    succeeds, and then with [enriched_records]. *)
Lemma run_add_and_edit_hits w srcs : forall t,
  match enriched_records w t srcs with
  | Some enriched =>
      run (add_and_edit w (List.map make_result srcs)) t
      = (Ok enriched,
         t ++ List.map (fun src => EvGet (detail_url_of src) []) srcs)
  | None =>
      is_Ok (fst (run (add_and_edit w (List.map make_result srcs)) t)) = false
  end.
Proof.
  induction srcs as [| src rest IH]; intros t.
  - simpl. rewrite app_nil_r. reflexivity.
  - cbn [enriched_records List.map add_and_edit].
    rewrite run_bind, run_add_and_edit_one_hit.
    destruct (http w t (detail_url_of src) []) as [e | resp]; [reflexivity |].
    destruct (enrich (lxml_of w (text resp)) (make_result src)) as [r | e];
      [| reflexivity].
    rewrite run_bind. specialize (IH (t ++ [EvGet (detail_url_of src) []])).
    destruct (enriched_records w (t ++ [EvGet (detail_url_of src) []]) rest)
      as [rs |].
    + rewrite IH, run_ret. simpl. rewrite <- app_assoc. reflexivity.
    + destruct (run (add_and_edit w (List.map make_result rest)) _)
        as [[rs | e] t1]; [discriminate | reflexivity].
Qed.

Lemma run_clean_up_hits w response t :
  match enriched_records w t (hit_sources response) with
  | Some enriched =>
      run (clean_up w response) t
      = (Ok (List.filter has_related_persons (List.map pop_identifiers enriched)),
         t ++ List.map (fun src => EvGet (detail_url_of src) [])
                       (hit_sources response))
  | None => is_Ok (fst (run (clean_up w response) t)) = false
  end.
Proof.
  pose proof (run_add_and_edit_hits w (hit_sources response) t) as H.
  unfold clean_up. rewrite run_bind, initial_results_map.
  destruct (enriched_records w t (hit_sources response)) as [enriched |].
  - rewrite H, run_ret. reflexivity.
  - destruct (run (add_and_edit w _) t) as [[rs | e] t1];
      [discriminate | reflexivity].
Qed.

(** C2. [clean_up] returns exactly when every detail request and every
    extractor succeeds, and the list it returns is then the list of the
    enriched records of the run (one per hit, in the order of the hits,
    identifiers removed) filtered by "Related Persons is not empty": the
    filter keeps the relative order, a record is kept exactly when its
    "Related Persons" is not empty, and filtering the result again changes
    nothing. *)
Theorem final_list_is_stable_filter w response t :
  (forall enriched,
     enriched_records w t (hit_sources response) = Some enriched ->
     exists t',
       run (clean_up w response) t
       = (Ok (List.filter has_related_persons
                (List.map pop_identifiers enriched)), t'))
  /\ (forall out t',
        run (clean_up w response) t = (Ok out, t') ->
        exists enriched,
          enriched_records w t (hit_sources response) = Some enriched
          /\ out = List.filter has_related_persons
                     (List.map pop_identifiers enriched)
          /\ sublist out (List.map pop_identifiers enriched)
          /\ (forall r, In r out <->
                        In r (List.map pop_identifiers enriched)
                        /\ exists s, r !! "Related Persons" = Some s /\ s <> "")
          /\ List.filter has_related_persons out = out).
Proof.
  pose proof (run_clean_up_hits w response t) as H.
  destruct (enriched_records w t (hit_sources response)) as [enriched |].
  - split.
    + intros enriched' [= <-]. eexists. exact H.
    + intros out t' Hrun. rewrite H in Hrun. injection Hrun as <- _.
      exists enriched. split; [reflexivity |]. split; [reflexivity |].
      split; [apply filter_sublist |]. split; [| apply filter_idem].
      intros r. rewrite filter_In, has_related_persons_spec. reflexivity.
  - split; [discriminate |].
    intros out t' Hrun. rewrite Hrun in H. discriminate.
Qed.

(** On [world_ok] the run has one enriched record, and it is kept. *)
Lemma final_list_is_stable_filter_witness :
  exists enriched,
    enriched_records Examples.world_ok [] (hit_sources Examples.one_hit)
    = Some enriched
    /\ [Examples.record_full]
       = List.filter has_related_persons (List.map pop_identifiers enriched)
    /\ sublist [Examples.record_full] (List.map pop_identifiers enriched)
    /\ (forall r, In r [Examples.record_full] <->
                  In r (List.map pop_identifiers enriched)
                  /\ exists s, r !! "Related Persons" = Some s /\ s <> "")
    /\ List.filter has_related_persons [Examples.record_full]
       = [Examples.record_full].
Proof.
  destruct (final_list_is_stable_filter Examples.world_ok Examples.one_hit [])
    as [_ H].
  apply (H [Examples.record_full]
           [EvGet (detail_url_of Examples.hit_1234567) []]).
  vm_compute. reflexivity.
Defined.

(** X6. When [clean_up] returns, it has requested the detail page of
    every hit, once each and in the order of the hits, also for the hits
    that the final filter drops; it never returns more records than
    hits. *)
Theorem clean_up_requests_every_hit w response t out t' :
  run (clean_up w response) t = (Ok out, t') ->
  t' = t ++ List.map (fun src => EvGet (detail_url_of src) [])
                     (hit_sources response)
  /\ (length out <= length (hit_sources response))%nat.
Proof.
  intros Hrun.
  pose proof (run_clean_up _ _ _ _ _ Hrun) as (enriched & Hadd & ->).
  pose proof (run_add_and_edit _ _ _ _ _ Hadd) as Hall.
  apply run_add_and_edit_trace in Hadd as (n & links & Hlinks & -> & Hn).
  rewrite (Hn eq_refl), firstn_all in Hlinks.
  rewrite initial_results_map in Hlinks, Hall.
  apply links_of_hits in Hlinks as ->. split.
  - rewrite List.map_map. reflexivity.
  - apply Forall2_length in Hall. rewrite length_map in Hall.
    rewrite Hall. etransitivity; [apply List.filter_length_le |].
    rewrite length_map. reflexivity.
Qed.

(** X7. Without the key "hits", without the inner key "hits", or with an
    empty list of hits, [clean_up] returns the empty list and sends no
    request. *)
Theorem clean_up_no_hits w response t :
  hit_sources response = [] ->
  run (clean_up w response) t = (Ok [], t).
Proof.
  intros Hnone. unfold clean_up.
  rewrite initial_results_map, Hnone. reflexivity.
Qed.

(** [fetch_sec_filings] once the search has answered with a body that is
    JSON: what [clean_up] does decides. *)
Lemma run_fetch_after_search w start_date end_date t r js :
  http w t URL (search_params start_date end_date) = inr r ->
  http_error_msg r = None ->
  json_of w (text r) = inr js ->
  run (fetch_sec_filings w start_date end_date) t
  = match run (clean_up w js) (t ++ [EvGet URL (search_params start_date end_date)]) with
    | (Ok out, t') => (Ok (Some out), t')
    | (Raise (RequestException e), t') =>
        (Ok None, t' ++ [EvError ("Request failed: " ++ exn_str e)])
    | (Raise e, t') => (Raise e, t')
    end.
Proof.
  intros Hhttp Hmsg Hjson.
  unfold fetch_sec_filings, try_except_RequestException. cbn [run].
  rewrite run_bind. unfold requests_get at 1. cbn [run]. rewrite Hhttp.
  rewrite run_bind. unfold raise_for_status. rewrite Hmsg, run_ret.
  rewrite run_bind. unfold response_json. rewrite Hjson, run_ret.
  rewrite run_bind.
  destruct (run (clean_up w js) _) as [[out | e] t'].
  - rewrite run_ret. reflexivity.
  - destruct e; reflexivity.
Qed.

Lemma run_check_for_filings w start_date end_date t :
  run (check_for_filings w start_date end_date) t
  = match run (fetch_sec_filings w start_date end_date) t with
    | (Ok filings, t') => (Ok tt, t' ++ [shown (default [] filings)])
    | (Raise e, t') => (Raise e, t')
    end.
Proof.
  unfold check_for_filings. rewrite run_bind.
  destruct (run (fetch_sec_filings w start_date end_date) t) as [[filings | e] t'];
    [| reflexivity].
  destruct filings as [[| r out] |]; reflexivity.
Qed.

Lemma enrich_raises page company e :
  enrich page company = Raise e -> not_RequestException e.
Proof.
  unfold enrich.
  destruct (Extract.extract_phone_number page) as [phone | e1] eqn:Hp.
  - destruct (Extract.extract_offering_amounts page) as [[o s] | e2] eqn:Ho;
      simpl; [discriminate |].
    intros [= <-].
    apply ExtractMore.extract_offering_amounts_raises in Ho as [-> | ->]; exact I.
  - simpl. intros [= <-].
    apply ExtractMore.extract_phone_number_raises in Hp as [-> | ->]; exact I.
Qed.

Lemma newLink_raises company e : newLink company = Raise e -> e = KeyError.
Proof.
  unfold newLink, getitem.
  destruct (company !! "CIK"); simpl; [| intros [= <-]; reflexivity].
  destruct (company !! "ADSH"); simpl; [discriminate | intros [= <-]; reflexivity].
Qed.

(** A [RequestException] out of one step of the loop is the error of its
    request. *)
Lemma add_and_edit_one_RequestException w company t err t' :
  run (add_and_edit_one w company) t = (Raise (RequestException err), t') ->
  exists link, http w t link [] = inl err /\ t' = t ++ [EvGet link []].
Proof.
  unfold add_and_edit_one. rewrite run_bind. unfold lift at 1. cbn [run].
  destruct (newLink company) as [link | e] eqn:Hlink.
  - rewrite run_bind. unfold requests_get. cbn [run].
    destruct (http w t link []) as [err' | resp] eqn:Hhttp.
    + intros [= <- <-]. eauto.
    + unfold lift. cbn [run]. intros [= He _].
      apply enrich_raises in He. contradiction.
  - apply newLink_raises in Hlink as ->. discriminate.
Qed.

(** A [RequestException] out of the loop is the error of the last request
    sent. *)
Lemma add_and_edit_RequestException w results : forall t err t',
  run (add_and_edit w results) t = (Raise (RequestException err), t') ->
  exists t1 link,
    http w t1 link [] = inl err /\ t' = t1 ++ [EvGet link []].
Proof.
  induction results as [| company rest IH]; intros t err t'.
  - simpl. discriminate.
  - cbn [add_and_edit]. rewrite run_bind.
    destruct (run (add_and_edit_one w company) t) as [[c' | e] t1] eqn:H1.
    + rewrite run_bind.
      destruct (run (add_and_edit w rest) t1) as [[rest' | e] t2] eqn:H2.
      * rewrite run_ret. discriminate.
      * intros [= -> <-]. eapply IH. exact H2.
    + intros [= -> <-].
      apply add_and_edit_one_RequestException in H1 as (link & Hh & ->). eauto.
Qed.

Lemma clean_up_RequestException w response t err t' :
  run (clean_up w response) t = (Raise (RequestException err), t') ->
  exists t1 link,
    http w t1 link [] = inl err /\ t' = t1 ++ [EvGet link []].
Proof.
  unfold clean_up. rewrite run_bind.
  destruct (run (add_and_edit w (initial_results response)) t)
    as [[enriched | e] t1] eqn:Hadd.
  - rewrite run_ret. discriminate.
  - intros [= -> <-]. eapply add_and_edit_RequestException. exact Hadd.
Qed.

(** X8. [clean_up] runs inside the [try] of [fetch_sec_filings]: a
    [RequestException] out of it is the error of the last detail request
    sent; it is caught, reported as "Request failed: ..." and [None] is
    returned, so that [main] shows its empty-state message and every record
    is lost. *)
Theorem detail_request_error_is_reported w start_date end_date t r js err t2 :
  http w t URL (search_params start_date end_date) = inr r ->
  http_error_msg r = None ->
  json_of w (text r) = inr js ->
  run (clean_up w js) (t ++ [EvGet URL (search_params start_date end_date)])
  = (Raise (RequestException err), t2) ->
  (exists t1 link, http w t1 link [] = inl err /\ t2 = t1 ++ [EvGet link []])
  /\ run (fetch_sec_filings w start_date end_date) t
     = (Ok None, t2 ++ [EvError ("Request failed: " ++ exn_str err)])
  /\ run (check_for_filings w start_date end_date) t
     = (Ok tt, t2 ++ [EvError ("Request failed: " ++ exn_str err);
                      EvWrite "No filings found or an error occurred."]).
Proof.
  intros Hhttp Hmsg Hjson Hclean.
  split; [eapply clean_up_RequestException; exact Hclean |].
  assert (Hfetch : run (fetch_sec_filings w start_date end_date) t
     = (Ok None, t2 ++ [EvError ("Request failed: " ++ exn_str err)])).
  { rewrite (run_fetch_after_search _ _ _ _ _ _ Hhttp Hmsg Hjson), Hclean.
    reflexivity. }
  split; [exact Hfetch |].
  rewrite run_check_for_filings, Hfetch. simpl. rewrite <- app_assoc. reflexivity.
Qed.

(** X9. An exception of [clean_up] that is not a [RequestException] (an
    extractor failing on a page) is not caught: [fetch_sec_filings] raises
    it, nothing is reported and [main] writes nothing. *)
Theorem extraction_error_aborts w start_date end_date t r js e t2 :
  http w t URL (search_params start_date end_date) = inr r ->
  http_error_msg r = None ->
  json_of w (text r) = inr js ->
  run (clean_up w js) (t ++ [EvGet URL (search_params start_date end_date)])
  = (Raise e, t2) ->
  not_RequestException e ->
  run (fetch_sec_filings w start_date end_date) t = (Raise e, t2)
  /\ run (check_for_filings w start_date end_date) t = (Raise e, t2).
Proof.
  intros Hhttp Hmsg Hjson Hclean Hnot.
  assert (Hfetch : run (fetch_sec_filings w start_date end_date) t = (Raise e, t2)).
  { rewrite (run_fetch_after_search _ _ _ _ _ _ Hhttp Hmsg Hjson), Hclean.
    destruct e; [contradiction | reflexivity..]. }
  split; [exact Hfetch |].
  rewrite run_check_for_filings, Hfetch. reflexivity.
Qed.

(** X10. After a search that answered with JSON, [fetch_sec_filings]
    returns the list of [clean_up]; [main] writes the table when the list is
    not empty and the empty-state message when it is. *)
Theorem filings_are_shown w start_date end_date t r js out t' :
  http w t URL (search_params start_date end_date) = inr r ->
  http_error_msg r = None ->
  json_of w (text r) = inr js ->
  run (clean_up w js) (t ++ [EvGet URL (search_params start_date end_date)])
  = (Ok out, t') ->
  run (fetch_sec_filings w start_date end_date) t = (Ok (Some out), t')
  /\ run (check_for_filings w start_date end_date) t
     = (Ok tt, t' ++ [shown out]).
Proof.
  intros Hhttp Hmsg Hjson Hclean.
  assert (Hfetch : run (fetch_sec_filings w start_date end_date) t
                   = (Ok (Some out), t')).
  { rewrite (run_fetch_after_search _ _ _ _ _ _ Hhttp Hmsg Hjson), Hclean.
    reflexivity. }
  split; [exact Hfetch |].
  rewrite run_check_for_filings, Hfetch. reflexivity.
Qed.

(** X11. A search response whose status is accepted but whose body is not
    JSON is reported as "Request failed: " with the message of the decoder,
    and [None] is returned after the single request. *)
Theorem body_not_json_is_reported w start_date end_date t r msg :
  http w t URL (search_params start_date end_date) = inr r ->
  http_error_msg r = None ->
  json_of w (text r) = inl msg ->
  run (fetch_sec_filings w start_date end_date) t
  = (Ok None,
     t ++ [EvGet URL (search_params start_date end_date);
           EvError ("Request failed: " ++ msg)]).
Proof.
  intros Hhttp Hmsg Hjson.
  unfold fetch_sec_filings, try_except_RequestException. cbn [run].
  rewrite run_bind. unfold requests_get at 1. cbn [run]. rewrite Hhttp.
  rewrite run_bind. unfold raise_for_status. rewrite Hmsg, run_ret.
  rewrite run_bind. unfold response_json. rewrite Hjson.
  simpl. rewrite <- app_assoc. reflexivity.
Qed.

(** X12. [add_and_edit] stops at the first record whose enrichment
    fails: the exception is raised with the trace of that step, and the
    records after it are never requested. *)
Theorem add_and_edit_stops_at_first_failure w before company rest :
  forall t before' t1 e t2,
  run (add_and_edit w before) t = (Ok before', t1) ->
  run (add_and_edit_one w company) t1 = (Raise e, t2) ->
  run (add_and_edit w (before ++ company :: rest)) t = (Raise e, t2).
Proof.
  induction before as [| c before IH]; intros t before' t1 e t2 Hbefore Hone.
  - simpl in Hbefore. injection Hbefore as <- <-.
    simpl app. cbn [add_and_edit]. rewrite run_bind, Hone. reflexivity.
  - simpl app. cbn [add_and_edit] in *. rewrite run_bind in *.
    destruct (run (add_and_edit_one w c) t) as [[c' | e'] t0]; [| discriminate].
    rewrite run_bind in *.
    destruct (run (add_and_edit w before) t0) as [[b' | e'] t0'] eqn:Hb;
      [| discriminate].
    rewrite run_ret in Hbefore. injection Hbefore as <- <-.
    rewrite (IH _ _ _ _ _ Hb Hone). reflexivity.
Qed.

(** [fetch_sec_filings], case by case. *)
Lemma run_fetch_cases w start_date end_date t :
  let get := EvGet URL (search_params start_date end_date) in
  run (fetch_sec_filings w start_date end_date) t
  = match http w t URL (search_params start_date end_date) with
    | inl err => (Ok None, t ++ [get; EvError ("Request failed: " ++ exn_str err)])
    | inr r =>
        match http_error_msg r with
        | Some msg => (Ok None, t ++ [get; EvError ("Request failed: " ++ msg)])
        | None =>
            match json_of w (text r) with
            | inl msg => (Ok None, t ++ [get; EvError ("Request failed: " ++ msg)])
            | inr js =>
                match run (clean_up w js) (t ++ [get]) with
                | (Ok out, t') => (Ok (Some out), t')
                | (Raise (RequestException e), t') =>
                    (Ok None, t' ++ [EvError ("Request failed: " ++ exn_str e)])
                | (Raise e, t') => (Raise e, t')
                end
            end
        end
    end.
Proof.
  intros get. subst get.
  destruct (http w t URL (search_params start_date end_date)) as [err | r] eqn:Hhttp.
  - unfold fetch_sec_filings, try_except_RequestException. cbn [run].
    rewrite run_bind. unfold requests_get at 1. cbn [run]. rewrite Hhttp.
    simpl. rewrite <- app_assoc. reflexivity.
  - destruct (http_error_msg r) as [msg |] eqn:Hmsg.
    + unfold fetch_sec_filings, try_except_RequestException. cbn [run].
      rewrite run_bind. unfold requests_get at 1. cbn [run]. rewrite Hhttp.
      rewrite run_bind. unfold raise_for_status. rewrite Hmsg.
      simpl. rewrite <- app_assoc. reflexivity.
    + destruct (json_of w (text r)) as [msg | js] eqn:Hjson.
      * unfold fetch_sec_filings, try_except_RequestException. cbn [run].
        rewrite run_bind. unfold requests_get at 1. cbn [run]. rewrite Hhttp.
        rewrite run_bind. unfold raise_for_status. rewrite Hmsg, run_ret.
        rewrite run_bind. unfold response_json. rewrite Hjson.
        simpl. rewrite <- app_assoc. reflexivity.
      * apply (run_fetch_after_search _ _ _ _ r js); assumption.
Qed.

(** The requests of [clean_up] go to detail pages. *)
Lemma run_clean_up_trace w response t r t' :
  run (clean_up w response) t = (r, t') ->
  exists links,
    t' = t ++ List.map (fun link => EvGet link []) links
    /\ Forall (fun link => exists cik adsh, link = primary_doc_url cik adsh) links.
Proof.
  unfold clean_up. rewrite run_bind.
  destruct (run (add_and_edit w (initial_results response)) t) as [r1 t1] eqn:Hadd.
  apply run_add_and_edit_trace in Hadd as (n & links & Hall & -> & _).
  intros Hr. exists links. split.
  - destruct r1; [rewrite run_ret in Hr |]; injection Hr as _ <-; reflexivity.
  - clear Hr. revert Hall. generalize (take n (initial_results response)).
    intros l Hall. induction Hall as [| c link l links Hl _ IH]; constructor.
    + eapply newLink_is_primary_doc_url. exact Hl.
    + exact IH.
Qed.

Lemma no_search_request_among links :
  Forall (fun link => exists cik adsh, link = primary_doc_url cik adsh) links ->
  forall params, ~ In (EvGet URL params) (List.map (fun link => EvGet link []) links).
Proof.
  intros Hall params Hin. apply in_map_iff in Hin as (link & Heq & Hin).
  rewrite Forall_forall in Hall. apply list_elem_of_In in Hin.
  destruct (Hall _ Hin) as (cik & adsh & ->).
  apply (primary_doc_url_not_URL cik adsh).
  exact (f_equal (fun ev => match ev with EvGet u _ => u | _ => "" end) Heq).
Qed.

(** X13. Every run of [fetch_sec_filings], however it ends, sends exactly
    one request to the search URL, and sends it first. *)
Theorem exactly_one_search_request w start_date end_date t r t' :
  run (fetch_sec_filings w start_date end_date) t = (r, t') ->
  exists rest,
    t' = t ++ EvGet URL (search_params start_date end_date) :: rest
    /\ forall params, ~ In (EvGet URL params) rest.
Proof.
  rewrite run_fetch_cases. cbv zeta.
  destruct (http w t URL (search_params start_date end_date)) as [err | resp].
  { intros [= _ <-]. eexists. split; [reflexivity |].
    intros params [H | []]. discriminate. }
  destruct (http_error_msg resp) as [msg |].
  { intros [= _ <-]. eexists. split; [reflexivity |].
    intros params [H | []]. discriminate. }
  destruct (json_of w (text resp)) as [msg | js].
  { intros [= _ <-]. eexists. split; [reflexivity |].
    intros params [H | []]. discriminate. }
  destruct (run (clean_up w js) _) as [r1 t1] eqn:Hclean.
  apply run_clean_up_trace in Hclean as (links & -> & Hlinks).
  pose proof (no_search_request_among _ Hlinks) as Hno.
  destruct r1 as [out | e].
  - intros [= _ <-]. exists (List.map (fun link => EvGet link []) links).
    split; [rewrite <- app_assoc; reflexivity | exact Hno].
  - destruct e as [err | | | | |];
      intros [= _ <-];
      try (exists (List.map (fun link => EvGet link []) links);
           split; [rewrite <- app_assoc; reflexivity | exact Hno]).
    exists (List.map (fun link => EvGet link []) links
            ++ [EvError ("Request failed: " ++ exn_str err)]).
    split; [rewrite <- !app_assoc; reflexivity |].
    intros params [Hin | [H | []]]%in_app_or; [exact (Hno _ Hin) | discriminate].
Qed.

Lemma has_ciks_and_adsh_false src :
  has_ciks_and_adsh src = false <-> lacks_ciks_adsh src.
Proof.
  unfold has_ciks_and_adsh, lacks_ciks_adsh. split.
  - destruct (ciks src) as [cs |]; [| auto].
    destruct (adsh src) as [[| c a] |]; [auto | discriminate | auto].
  - intros [-> | [-> | ->]]; [reflexivity | |]; destruct (ciks src); reflexivity.
Qed.

Lemma edgar_anchor_is_anchor adsh_cleaned cik :
  edgar_anchor adsh_cleaned cik
  = anchor (primary_doc_url (PyStr.lstrip_zeros cik) adsh_cleaned).
Proof. reflexivity. Qed.

Lemma joined_anchors_not_the_literal adsh_cleaned cs :
  PyStr.join ", " (List.map (edgar_anchor adsh_cleaned) cs)
  <> "No links available".
Proof.
  destruct cs as [| c [| c' cs]]; simpl; unfold edgar_anchor; simpl; discriminate.
Qed.

(** X14. The link field of a record is "No links available" exactly when
    the hit has no key [ciks] or no non-empty [adsh]. *)
Theorem no_links_iff_lacks_pair src :
  make_result src !! "Edgar" = Some "No links available"
  <-> lacks_ciks_adsh src.
Proof.
  rewrite lookup_Edgar_make_result, <- has_ciks_and_adsh_false.
  unfold edgar_links. destruct (has_ciks_and_adsh src).
  - split; [| discriminate]. intros [= H].
    exfalso. exact (joined_anchors_not_the_literal _ _ H).
  - split; reflexivity.
Qed.

(** X15. For a hit with one CIK and a non-empty accession number, the
    page that [add_and_edit] requests is the page that the link field points
    to: cleaning the identifiers a second time changes nothing. *)
Theorem single_cik_link_is_the_page_scraped src cik a :
  ciks src = Some [cik] ->
  adsh src = Some a ->
  a <> "" ->
  newLink (make_result src) = Ok (detail_url_of src)
  /\ make_result src !! "Edgar" = Some (anchor (detail_url_of src))
  /\ detail_url_of src
     = primary_doc_url (PyStr.lstrip_zeros cik) (PyStr.remove_hyphens a).
Proof.
  intros Hciks Hadsh Hne. split; [apply newLink_make_result |].
  assert (Hurl : detail_url_of src
     = primary_doc_url (PyStr.lstrip_zeros cik) (PyStr.remove_hyphens a)).
  { unfold detail_url_of, cik_field, adsh_field. rewrite Hciks, Hadsh. reflexivity. }
  split; [| exact Hurl].
  rewrite lookup_Edgar_make_result, Hurl.
  unfold edgar_links, has_ciks_and_adsh. rewrite Hciks, Hadsh.
  destruct a as [| c a']; [congruence |]. reflexivity.
Qed.

(** The enriched records of a run come from the pages of the run, one
    each. *)
Lemma enriched_records_pages w srcs : forall t enriched,
  enriched_records w t srcs = Some enriched ->
  Forall2 (fun page r => exists company, enrich page company = Ok r)
          (detail_pages w t srcs) enriched.
Proof.
  induction srcs as [| src rest IH]; intros t enriched.
  - simpl. intros [= <-]. constructor.
  - cbn [enriched_records detail_pages].
    destruct (http w t (detail_url_of src) []) as [e | resp]; [discriminate |].
    cbv zeta.
    destruct (enrich (lxml_of w (text resp)) (make_result src)) as [r | e] eqn:He;
      [| discriminate].
    destruct (enriched_records w (t ++ [EvGet (detail_url_of src) []]) rest)
      as [rs |] eqn:Hrest; [| discriminate].
    intros [= <-]. simpl. constructor; [eauto |]. apply IH. exact Hrest.
Qed.

Lemma no_table_no_related_persons page company r :
  Soup.find_all Extract.related_persons_tables (Extract.doc page) = [] ->
  enrich page company = Ok r ->
  has_related_persons (pop_identifiers r) = false.
Proof.
  intros Hnone (phone & offered & raised & _ & _ & ->)%enrich_Ok.
  unfold has_related_persons, pop_identifiers.
  rewrite !lookup_delete_ne, !lookup_insert_ne, lookup_insert_eq by discriminate.
  unfold Extract.extract_related_persons. rewrite Hnone. reflexivity.
Qed.

(** X16. When none of the detail pages that the run parses has a "Related
    Persons" table, [clean_up] returns the empty list. *)
Theorem no_related_persons_table_no_record w response t out t' :
  Forall (fun page =>
            Soup.find_all Extract.related_persons_tables (Extract.doc page) = [])
         (detail_pages w t (hit_sources response)) ->
  run (clean_up w response) t = (Ok out, t') ->
  out = [].
Proof.
  intros Hnone Hrun.
  pose proof (run_clean_up_hits w response t) as H.
  destruct (enriched_records w t (hit_sources response)) as [enriched |] eqn:He.
  - rewrite H in Hrun. injection Hrun as <- _.
    apply enriched_records_pages in He. clear H.
    induction He as [| page r pages rs (company & Hr) _ IH]; [reflexivity |].
    apply Forall_cons_iff in Hnone as [Hpage Hpages].
    simpl. rewrite (no_table_no_related_persons _ _ _ Hpage Hr).
    apply IH. exact Hpages.
  - rewrite Hrun in H. discriminate.
Qed.

(** X17. Every record of the final list carries the fields of one hit of
    the response: the display names and the business locations joined by
    ", " (empty when the key is missing), the file date ("Unknown" when
    missing) and the links built for that hit. *)
Theorem output_fields_come_from_a_hit w response t out t' r :
  run (clean_up w response) t = (Ok out, t') ->
  In r out ->
  exists src,
    In src (hit_sources response)
    /\ r !! "Company Name"
       = Some (PyStr.join ", " (default [] (display_names src)))
    /\ r !! "File Date" = Some (default "Unknown" (file_date src))
    /\ r !! "Business Location(s)"
       = Some (PyStr.join ", " (default [] (biz_locations src)))
    /\ r !! "Edgar" = Some (edgar_links src).
Proof.
  intros Hrun Hin.
  apply clean_up_enriched in Hrun as (enriched & Hall & ->).
  apply filter_In in Hin as [Hin _].
  apply in_map_iff in Hin as (r' & <- & Hin).
  destruct (Forall2_In_r _ _ _ _ Hall Hin) as (src & Hsrc & page & He).
  exists src. split; [exact Hsrc |].
  apply enrich_Ok in He as (phone & offered & raised & _ & _ & ->).
  unfold pop_identifiers, make_result.
  rewrite !lookup_delete_ne by discriminate.
  split; [| split; [| split]];
    rewrite !lookup_insert_ne by discriminate; apply lookup_insert_eq.
Qed.

End PipelineMore.

Module PipelineWitnesses.
Import Effects Pipeline Claims Notions Examples Examples2 PipelineMore.

Lemma clean_up_requests_every_hit_witness :
  [EvGet (detail_url_of hit_1234567) []]
  = [] ++ List.map (fun src => EvGet (detail_url_of src) []) (hit_sources one_hit)
  /\ (length [record_full] <= length (hit_sources one_hit))%nat.
Proof.
  apply (clean_up_requests_every_hit world_ok one_hit [] [record_full]).
  vm_compute. reflexivity.
Defined.

Lemma clean_up_no_hits_witness :
  run (clean_up world_ok no_hits) [] = (Ok [], []).
Proof. apply clean_up_no_hits. reflexivity. Defined.

Lemma detail_request_error_is_reported_witness :
  run (check_for_filings world_detail_down "2024-01-01" "2024-01-31") []
  = (Ok tt,
     [EvGet URL (search_params "2024-01-01" "2024-01-31");
      EvGet (detail_url_of hit_1234567) [];
      EvError "Request failed: Connection refused";
      EvWrite "No filings found or an error occurred."]).
Proof.
  edestruct (detail_request_error_is_reported world_detail_down
               "2024-01-01" "2024-01-31" []) as (_ & _ & H).
  - reflexivity.
  - reflexivity.
  - reflexivity.
  - vm_compute. reflexivity.
  - exact H.
Defined.

Lemma extraction_error_aborts_witness :
  run (check_for_filings world_unticked "2024-01-01" "2024-01-31") []
  = (Raise UnboundLocalError,
     [EvGet URL (search_params "2024-01-01" "2024-01-31");
      EvGet (detail_url_of hit_1234567) []]).
Proof.
  edestruct (extraction_error_aborts world_unticked
               "2024-01-01" "2024-01-31" []) as (_ & H).
  - reflexivity.
  - reflexivity.
  - reflexivity.
  - vm_compute. reflexivity.
  - exact I.
  - exact H.
Defined.

Lemma filings_are_shown_witness :
  run (check_for_filings world_ok "2024-01-01" "2024-01-31") []
  = (Ok tt,
     [EvGet URL (search_params "2024-01-01" "2024-01-31");
      EvGet (detail_url_of hit_1234567) [];
      EvWriteTable [record_full]]).
Proof.
  edestruct (filings_are_shown world_ok "2024-01-01" "2024-01-31" []) as (_ & H).
  - reflexivity.
  - reflexivity.
  - reflexivity.
  - vm_compute. reflexivity.
  - exact H.
Defined.

Lemma body_not_json_is_reported_witness :
  run (fetch_sec_filings world_not_json "2024-01-01" "2024-01-31") []
  = (Ok None,
     [EvGet URL (search_params "2024-01-01" "2024-01-31");
      EvError "Request failed: Expecting value: line 1 column 1 (char 0)"]).
Proof.
  eapply (body_not_json_is_reported world_not_json "2024-01-01" "2024-01-31" []).
  - reflexivity.
  - reflexivity.
  - reflexivity.
Defined.

Lemma add_and_edit_stops_at_first_failure_witness :
  run (add_and_edit world_second_down
         ([make_result hit_1234567] ++ make_result empty_source
            :: [make_result hit_no_ciks])) []
  = (Raise (RequestException (ConnectionError "Read timed out")),
     [EvGet (detail_url_of hit_1234567) [];
      EvGet (detail_url_of empty_source) []]).
Proof.
  eapply add_and_edit_stops_at_first_failure.
  - vm_compute. reflexivity.
  - vm_compute. reflexivity.
Defined.

Lemma exactly_one_search_request_witness :
  exists rest,
    [EvGet URL (search_params "2024-01-01" "2024-01-31");
     EvGet (detail_url_of hit_1234567) []]
    = [] ++ EvGet URL (search_params "2024-01-01" "2024-01-31") :: rest
    /\ forall params, ~ In (EvGet URL params) rest.
Proof.
  apply (exactly_one_search_request world_ok "2024-01-01" "2024-01-31" []
           (Ok (Some [record_full]))).
  vm_compute. reflexivity.
Defined.

Lemma single_cik_link_is_the_page_scraped_witness :
  newLink (make_result hit_1234567) = Ok (detail_url_of hit_1234567)
  /\ make_result hit_1234567 !! "Edgar" = Some (anchor (detail_url_of hit_1234567))
  /\ detail_url_of hit_1234567
     = primary_doc_url (PyStr.lstrip_zeros "0001234567")
                       (PyStr.remove_hyphens "0001234567-24-000001").
Proof.
  apply single_cik_link_is_the_page_scraped; [reflexivity | reflexivity | discriminate].
Defined.

Lemma no_related_persons_table_no_record_witness :
  detail_pages world_mixed [] (hit_sources one_hit) = [page_no_sold]
  /\ run (clean_up world_mixed one_hit) []
     = (Ok [], [EvGet (detail_url_of hit_1234567) []])
  /\ ([] : list (gmap string string)) = [].
Proof.
  split; [vm_compute; reflexivity |].
  split; [vm_compute; reflexivity |].
  apply (no_related_persons_table_no_record world_mixed one_hit [] []
           [EvGet (detail_url_of hit_1234567) []]).
  - change (detail_pages world_mixed [] (hit_sources one_hit))
      with [page_no_sold].
    constructor; [reflexivity | constructor].
  - vm_compute. reflexivity.
Defined.

Lemma output_fields_come_from_a_hit_witness :
  exists src,
    In src (hit_sources one_hit)
    /\ record_full !! "Company Name"
       = Some (PyStr.join ", " (default [] (display_names src)))
    /\ record_full !! "File Date" = Some (default "Unknown" (file_date src))
    /\ record_full !! "Business Location(s)"
       = Some (PyStr.join ", " (default [] (biz_locations src)))
    /\ record_full !! "Edgar" = Some (edgar_links src).
Proof.
  eapply (output_fields_come_from_a_hit world_ok one_hit [] [record_full]).
  - vm_compute. reflexivity.
  - left. reflexivity.
Defined.

End PipelineWitnesses.

(** ** The application *)

Module AppFacts.
Import Effects Pipeline Claims Notions App.

Lemma run_app_bind {A B} (m : AppM A) (k : A -> AppM B) st :
  run_app (m ≫= k) st
  = match run_app m st with
    | (Done a, st') => run_app (k a) st'
    | (Stopped, st') => (Stopped, st')
    | (Crashed e, st') => (Crashed e, st')
    end.
Proof. reflexivity. Qed.

Lemma run_app_ret {A} (a : A) st : run_app (mret a) st = (Done a, st).
Proof. reflexivity. Qed.

Lemma run_write_messages l : forall ss L,
  run_app (write_messages l) {| session := ss; log := L |}
  = (Done tt, {| session := ss; log := L ++ List.map chat_of l |}).
Proof.
  induction l as [| m l IH]; intros ss L; simpl.
  - rewrite app_nil_r. reflexivity.
  - rewrite IH, <- app_assoc. reflexivity.
Qed.

(** The side bar, case by case. *)
Lemma run_sidebar aw inp ss L :
  let h := history ss in
  let ss1 := {| chatbot_messages := Some h; filing_results := filing_results ss |} in
  let L1 := L ++ Header header_text :: List.map chat_of h in
  run_app (sidebar aw inp) {| session := ss; log := L |}
  = match prompt inp with
    | Some p =>
        if PyStr.truthy p then
          if negb (PyStr.truthy (openai_api_key inp)) then
            (Stopped,
             {| session := ss1;
                log := L1 ++ [Info "Please add your OpenAI API key to continue."] |})
          else
            let sent := h ++ [user_message p] in
            let L2 := L1 ++ [Chat "user" p] in
            match openai aw L2 (openai_api_key inp) "gpt-4o" sent with
            | inl msg =>
                (Crashed (OpenAIError msg),
                 {| session := {| chatbot_messages := Some sent;
                                  filing_results := filing_results ss |};
                    log := L2 ++ [Completion "gpt-4o" sent] |})
            | inr reply =>
                (Done tt,
                 {| session := {| chatbot_messages :=
                                    Some (sent ++ [assistant_message reply]);
                                  filing_results := filing_results ss |};
                    log := L2 ++ [Completion "gpt-4o" sent;
                                  Chat "assistant" reply] |})
            end
        else (Done tt, {| session := ss1; log := L1 |})
    | None => (Done tt, {| session := ss1; log := L1 |})
    end.
Proof.
  intros h ss1 L1.
  assert (Hstart :
    forall k : list message -> AppM unit,
    run_app (_ ← ui (Header header_text);
             ss ← get_session;
             _ ← match chatbot_messages ss with
                 | None => set_session {| chatbot_messages := Some [greeting];
                                          filing_results := filing_results ss |}
                 | Some _ => mret tt
                 end;
             l ← get_messages;
             _ ← write_messages l; k l)
            {| session := ss; log := L |}
    = run_app (k h) {| session := ss1; log := L1 |}).
  { intros k. subst h ss1 L1. unfold history.
    destruct ss as [[l |] fr]; simpl;
      rewrite ?run_write_messages, <- ?app_assoc; reflexivity. }
  unfold sidebar.
  rewrite (Hstart (fun _ => match prompt inp with Some p => _ | None => _ end)).
  destruct (prompt inp) as [p |]; [| reflexivity].
  destruct (PyStr.truthy p); [| reflexivity].
  destruct (PyStr.truthy (openai_api_key inp)); simpl; [| reflexivity].
  unfold chat_completion. simpl.
  destruct (openai aw _ _ _ _); simpl; rewrite <- ?app_assoc; reflexivity.
Qed.

Lemma pipe_trace_ui L evs :
  Forall (fun ev => match ev with Pipe _ => False | _ => True end) evs ->
  pipe_trace (L ++ evs) = pipe_trace L.
Proof.
  intros Hall. unfold pipe_trace. rewrite omap_app.
  induction Hall as [| ev evs Hev _ IH]; simpl.
  - apply app_nil_r.
  - destruct ev; [contradiction | exact IH ..].
Qed.

Lemma pipe_trace_title L :
  pipe_trace (L ++ [Title "Daily Form D Filings"; Markdown center_css])
  = pipe_trace L.
Proof. apply pipe_trace_ui. repeat constructor. Qed.

(** [main], case by case. *)
Lemma run_main aw inp ss L :
  let ss1 := {| chatbot_messages := chatbot_messages ss;
                filing_results := Some (stored_results ss) |} in
  let L1 := L ++ [Title "Daily Form D Filings"; Markdown center_css] in
  run_app (main aw inp) {| session := ss; log := L |}
  = if button inp then
      let t := pipe_trace L in
      let '(r, t') :=
        run (fetch_sec_filings (net aw) (start_date inp) (end_date inp)) t in
      let L2 := L1 ++ List.map Pipe (drop (length t) t') in
      match r with
      | Raise e => (Crashed (PyError e), {| session := ss1; log := L2 |})
      | Ok filings =>
          if filings_truthy filings then
            (Done tt,
             {| session := {| chatbot_messages := chatbot_messages ss;
                              filing_results := Some (Some (default [] filings)) |};
                log := L2 ++ [Pipe (EvWriteTable (default [] filings))] |})
          else
            (Done tt,
             {| session := ss1;
                log := L2 ++ [Pipe (EvWrite "No filings found or an error occurred.")] |})
      end
    else
      match stored_results ss with
      | Some df =>
          (Done tt, {| session := ss1; log := L1 ++ [Pipe (EvWriteTable df)] |})
      | None => (Done tt, {| session := ss1; log := L1 |})
      end.
Proof.
  intros ss1 L1.
  assert (Hstart : forall k : AppM unit,
    run_app (_ ← ui (Title "Daily Form D Filings");
             _ ← ui (Markdown center_css);
             ss ← get_session;
             _ ← match filing_results ss with
                 | None => set_session {| chatbot_messages := chatbot_messages ss;
                                          filing_results := Some None |}
                 | Some _ => mret tt
                 end; k)
            {| session := ss; log := L |}
    = run_app k {| session := ss1; log := L1 |}).
  { intros k. subst ss1 L1. unfold stored_results.
    destruct ss as [cm [fr |]]; simpl; rewrite <- app_assoc; reflexivity. }
  unfold main. rewrite Hstart.
  destruct (button inp).
  - rewrite run_app_bind. unfold pipeline at 1. cbn [run_app log session].
    subst L1. rewrite pipe_trace_title. cbv zeta.
    destruct (run (fetch_sec_filings _ _ _) (pipe_trace L)) as [[filings | e] t'];
      [| reflexivity].
    destruct (filings_truthy filings); reflexivity.
  - unfold get_filing_results. subst ss1. simpl.
    destruct (stored_results ss); reflexivity.
Qed.

Lemma drop_app_length {A} (l k : list A) : drop (length l) (l ++ k) = k.
Proof. induction l as [| a l IH]; [reflexivity | exact IH]. Qed.

Lemma truthy_not_empty s : s <> "" -> PyStr.truthy s = true.
Proof. destruct s; [congruence | reflexivity]. Qed.

Lemma run_script aw inp st :
  run_app (script aw inp) st
  = match run_app (sidebar aw inp) st with
    | (Done _, st') => run_app (main aw inp) st'
    | (Stopped, st') => (Stopped, st')
    | (Crashed e, st') => (Crashed e, st')
    end.
Proof. reflexivity. Qed.

(** X18. A prompt entered without an API key stops the whole run after
    the notice: nothing is added to the history, the chat API is not called,
    and [main] is not executed, so that neither the title nor a table is
    written and no request is sent. *)
Theorem prompt_without_key_stops_the_run aw inp ss L p :
  prompt inp = Some p ->
  p <> "" ->
  openai_api_key inp = "" ->
  run_app (script aw inp) {| session := ss; log := L |}
  = (Stopped,
     {| session := {| chatbot_messages := Some (history ss);
                      filing_results := filing_results ss |};
        log := L ++ Header header_text :: List.map chat_of (history ss)
                 ++ [Info "Please add your OpenAI API key to continue."] |}).
Proof.
  intros Hp Hne Hkey.
  rewrite run_script, run_sidebar. cbv zeta.
  rewrite Hp, (truthy_not_empty _ Hne), Hkey. simpl negb. cbv iota.
  rewrite <- app_assoc. reflexivity.
Qed.

(** X19. With a key, one prompt adds two messages to the history, the
    question and the answer; the chat API is called once, with model
    "gpt-4o" and the whole history including the question. *)
Theorem chat_turn_appends_question_and_answer aw inp ss L p reply :
  prompt inp = Some p ->
  p <> "" ->
  openai_api_key inp <> "" ->
  let sent := history ss ++ [user_message p] in
  let L2 := (L ++ Header header_text :: List.map chat_of (history ss))
              ++ [Chat "user" p] in
  openai aw L2 (openai_api_key inp) "gpt-4o" sent = inr reply ->
  run_app (sidebar aw inp) {| session := ss; log := L |}
  = (Done tt,
     {| session := {| chatbot_messages := Some (sent ++ [assistant_message reply]);
                      filing_results := filing_results ss |};
        log := L2 ++ [Completion "gpt-4o" sent; Chat "assistant" reply] |}).
Proof.
  intros Hp Hne Hkey sent L2 Hreply.
  rewrite run_sidebar. cbv zeta.
  rewrite Hp, (truthy_not_empty _ Hne), (truthy_not_empty _ Hkey).
  simpl negb. cbv iota. subst sent L2.
  rewrite Hreply. reflexivity.
Qed.

(** X20. When the chat API raises, the run ends there: the question stays
    in the history without an answer, and [main] is not executed. *)
Theorem chat_error_keeps_the_question aw inp ss L p msg :
  prompt inp = Some p ->
  p <> "" ->
  openai_api_key inp <> "" ->
  let sent := history ss ++ [user_message p] in
  let L2 := (L ++ Header header_text :: List.map chat_of (history ss))
              ++ [Chat "user" p] in
  openai aw L2 (openai_api_key inp) "gpt-4o" sent = inl msg ->
  run_app (script aw inp) {| session := ss; log := L |}
  = (Crashed (OpenAIError msg),
     {| session := {| chatbot_messages := Some sent;
                      filing_results := filing_results ss |};
        log := L2 ++ [Completion "gpt-4o" sent] |}).
Proof.
  intros Hp Hne Hkey sent L2 Herr.
  rewrite run_script, run_sidebar. cbv zeta.
  rewrite Hp, (truthy_not_empty _ Hne), (truthy_not_empty _ Hkey).
  simpl negb. cbv iota. subst sent L2.
  rewrite Herr. reflexivity.
Qed.

Lemma sidebar_history aw inp st r st' :
  run_app (sidebar aw inp) st = (r, st') ->
  filing_results (session st') = filing_results (session st)
  /\ exists added,
       chatbot_messages (session st') = Some (history (session st) ++ added)
       /\ (length added <= 2)%nat
       /\ (prompt inp = None -> added = []).
Proof.
  destruct st as [ss L]. rewrite run_sidebar. cbv zeta. simpl session.
  assert (Hnil : forall fr,
    exists added,
      chatbot_messages {| chatbot_messages := Some (history ss);
                          filing_results := fr |}
      = Some (history ss ++ added)
      /\ (length added <= 2)%nat /\ (prompt inp = None -> added = [])).
  { intros fr. exists []. simpl. rewrite app_nil_r.
    split; [reflexivity |]. split; [lia | reflexivity]. }
  destruct (prompt inp) as [p |].
  - destruct (PyStr.truthy p).
    + destruct (negb _).
      * intros [= _ <-]. split; [reflexivity | apply Hnil].
      * destruct (openai aw _ _ _ _) as [msg | reply]; intros [= _ <-];
          (split; [reflexivity |]); simpl.
        -- exists [user_message p].
           split; [reflexivity |]. split; [simpl; lia | discriminate].
        -- exists [user_message p; assistant_message reply].
           rewrite <- app_assoc.
           split; [reflexivity |]. split; [simpl; lia | discriminate].
    + intros [= _ <-]. split; [reflexivity | apply Hnil].
  - intros [= _ <-]. split; [reflexivity | apply Hnil].
Qed.

Lemma main_keeps_messages aw inp st r st' :
  run_app (main aw inp) st = (r, st') ->
  chatbot_messages (session st') = chatbot_messages (session st).
Proof.
  destruct st as [ss L]. rewrite run_main. cbv zeta. simpl session.
  destruct (button inp).
  - destruct (run _ _) as [[filings | e] t'].
    + destruct (filings_truthy filings); intros [= _ <-]; reflexivity.
    + intros [= _ <-]. reflexivity.
  - destruct (stored_results ss); intros [= _ <-]; reflexivity.
Qed.

(** X21. However a run ends, the chat history after it is the history
    before it followed by at most two new messages, and by none when no
    prompt was entered. *)
Theorem chat_history_only_grows aw inp st r st' :
  run_app (script aw inp) st = (r, st') ->
  exists added,
    chatbot_messages (session st') = Some (history (session st) ++ added)
    /\ (length added <= 2)%nat
    /\ (prompt inp = None -> added = []).
Proof.
  rewrite run_script.
  destruct (run_app (sidebar aw inp) st) as [[[] | | e] st1] eqn:Hside;
    apply sidebar_history in Hside as (_ & added & Hmsgs & Hlen & Hnone).
  - intros Hmain. apply main_keeps_messages in Hmain. rewrite Hmain. eauto.
  - intros [= _ <-]. eauto.
  - intros [= _ <-]. eauto.
Qed.

Lemma run_main_query aw inp ss L filings added :
  button inp = true ->
  run (fetch_sec_filings (net aw) (start_date inp) (end_date inp)) (pipe_trace L)
  = (Ok filings, pipe_trace L ++ added) ->
  run_app (main aw inp) {| session := ss; log := L |}
  = (Done tt,
     {| session :=
          {| chatbot_messages := chatbot_messages ss;
             filing_results :=
               Some (if filings_truthy filings then Some (default [] filings)
                     else stored_results ss) |};
        log := (L ++ [Title "Daily Form D Filings"; Markdown center_css])
               ++ List.map Pipe added
               ++ [Pipe (shown (default [] filings))] |}).
Proof.
  intros Hbutton Hrun. rewrite run_main. cbv zeta.
  rewrite Hbutton, Hrun, drop_app_length.
  destruct filings as [[| r out] |]; simpl; rewrite <- app_assoc; reflexivity.
Qed.

(** X22. A query that fails or finds nothing writes the empty-state
    message and leaves the stored table of the session as it was. *)
Theorem empty_query_keeps_stored_results aw inp ss L filings added :
  button inp = true ->
  run (fetch_sec_filings (net aw) (start_date inp) (end_date inp)) (pipe_trace L)
  = (Ok filings, pipe_trace L ++ added) ->
  filings = None \/ filings = Some [] ->
  run_app (main aw inp) {| session := ss; log := L |}
  = (Done tt,
     {| session := {| chatbot_messages := chatbot_messages ss;
                      filing_results := Some (stored_results ss) |};
        log := (L ++ [Title "Daily Form D Filings"; Markdown center_css])
               ++ List.map Pipe added
               ++ [Pipe (EvWrite "No filings found or an error occurred.")] |}).
Proof.
  intros Hbutton Hrun Hempty.
  rewrite (run_main_query _ _ _ _ _ _ Hbutton Hrun).
  destruct Hempty as [-> | ->]; reflexivity.
Qed.

(** X23. A query that finds records stores in the session exactly the
    table that it writes. *)
Theorem query_result_is_stored_and_shown aw inp ss L r out added :
  button inp = true ->
  run (fetch_sec_filings (net aw) (start_date inp) (end_date inp)) (pipe_trace L)
  = (Ok (Some (r :: out)), pipe_trace L ++ added) ->
  run_app (main aw inp) {| session := ss; log := L |}
  = (Done tt,
     {| session := {| chatbot_messages := chatbot_messages ss;
                      filing_results := Some (Some (r :: out)) |};
        log := (L ++ [Title "Daily Form D Filings"; Markdown center_css])
               ++ List.map Pipe added
               ++ [Pipe (EvWriteTable (r :: out))] |}).
Proof.
  intros Hbutton Hrun.
  rewrite (run_main_query _ _ _ _ _ _ Hbutton Hrun). reflexivity.
Qed.

(** X24. A run in which the button is not pressed writes the stored table
    again, sends no request and does not change the session. *)
Theorem rerun_shows_stored_results aw inp ss L df :
  button inp = false ->
  filing_results ss = Some (Some df) ->
  run_app (main aw inp) {| session := ss; log := L |}
  = (Done tt,
     {| session := ss;
        log := L ++ [Title "Daily Form D Filings"; Markdown center_css;
                     Pipe (EvWriteTable df)] |}).
Proof.
  intros Hbutton Hstored. rewrite run_main. cbv zeta.
  unfold stored_results. rewrite Hbutton, Hstored. simpl.
  destruct ss as [cm fr]. simpl in *. subst fr.
  rewrite <- app_assoc. reflexivity.
Qed.

(** X25. After a query that fails or finds nothing, the next run without
    the button writes the table of the earlier query again. *)
Theorem old_results_come_back_after_a_failure aw inp1 inp2 ss L df filings added :
  filing_results ss = Some (Some df) ->
  button inp1 = true ->
  run (fetch_sec_filings (net aw) (start_date inp1) (end_date inp1)) (pipe_trace L)
  = (Ok filings, pipe_trace L ++ added) ->
  filings = None \/ filings = Some [] ->
  button inp2 = false ->
  exists st1,
    run_app (main aw inp1) {| session := ss; log := L |} = (Done tt, st1)
    /\ session st1 = ss
    /\ run_app (main aw inp2) st1
       = (Done tt,
          {| session := ss;
             log := log st1 ++ [Title "Daily Form D Filings"; Markdown center_css;
                                Pipe (EvWriteTable df)] |}).
Proof.
  intros Hstored Hb1 Hrun Hempty Hb2.
  eexists. split.
  - rewrite (run_main_query _ _ _ _ _ _ Hb1 Hrun). reflexivity.
  - assert (Hss : {| chatbot_messages := chatbot_messages ss;
                     filing_results :=
                       Some (if filings_truthy filings
                             then Some (default [] filings)
                             else stored_results ss) |} = ss).
    { unfold stored_results. rewrite Hstored.
      destruct Hempty as [-> | ->]; simpl;
        destruct ss as [cm fr]; simpl in *; subst fr; reflexivity. }
    simpl session. simpl log. rewrite Hss. split; [reflexivity |].
    rewrite run_main. cbv zeta. unfold stored_results.
    rewrite Hb2, Hstored. simpl.
    destruct ss as [cm fr]. simpl in *. subst fr.
    rewrite <- app_assoc. reflexivity.
Qed.

(** X26. An exception that [fetch_sec_filings] raises ends the run of
    [main]: nothing more is written and the stored table is kept. *)
Theorem pipeline_exception_ends_the_run aw inp ss L e added :
  button inp = true ->
  run (fetch_sec_filings (net aw) (start_date inp) (end_date inp)) (pipe_trace L)
  = (Raise e, pipe_trace L ++ added) ->
  run_app (main aw inp) {| session := ss; log := L |}
  = (Crashed (PyError e),
     {| session := {| chatbot_messages := chatbot_messages ss;
                      filing_results := Some (stored_results ss) |};
        log := (L ++ [Title "Daily Form D Filings"; Markdown center_css])
               ++ List.map Pipe added |}).
Proof.
  intros Hbutton Hrun. rewrite run_main. cbv zeta.
  rewrite Hbutton, Hrun, drop_app_length. reflexivity.
Qed.

End AppFacts.

Module AppWitnesses.
Import Effects Pipeline Claims Notions App Examples Examples2 AppFacts.

Lemma prompt_without_key_stops_the_run_witness :
  run_app (script app_ok (asks "")) {| session := session_new; log := [] |}
  = (Stopped,
     {| session := {| chatbot_messages := Some [greeting];
                      filing_results := None |};
        log := [Header header_text;
                Chat "assistant" "Ask me anything about the Form D filings";
                Info "Please add your OpenAI API key to continue."] |}).
Proof.
  apply (prompt_without_key_stops_the_run app_ok (asks "") session_new []
           "What is a Form D?").
  - reflexivity.
  - discriminate.
  - reflexivity.
Defined.

Lemma chat_turn_appends_question_and_answer_witness :
  run_app (sidebar app_ok (asks "sk-test")) {| session := session_new; log := [] |}
  = (Done tt,
     {| session :=
          {| chatbot_messages :=
               Some (([greeting] ++ [user_message "What is a Form D?"])
                     ++ [assistant_message
                           "A notice of an exempt offering of securities."]);
             filing_results := None |};
        log := (([] ++ Header header_text :: List.map chat_of [greeting])
                ++ [Chat "user" "What is a Form D?"])
               ++ [Completion "gpt-4o"
                     ([greeting] ++ [user_message "What is a Form D?"]);
                   Chat "assistant"
                     "A notice of an exempt offering of securities."] |}).
Proof.
  apply (chat_turn_appends_question_and_answer app_ok (asks "sk-test")
           session_new [] "What is a Form D?").
  - reflexivity.
  - discriminate.
  - discriminate.
  - reflexivity.
Defined.

Lemma chat_error_keeps_the_question_witness :
  run_app (script app_chat_down (asks "sk-test"))
          {| session := session_new; log := [] |}
  = (Crashed (OpenAIError "Incorrect API key provided"),
     {| session :=
          {| chatbot_messages :=
               Some ([greeting] ++ [user_message "What is a Form D?"]);
             filing_results := None |};
        log := (([] ++ Header header_text :: List.map chat_of [greeting])
                ++ [Chat "user" "What is a Form D?"])
               ++ [Completion "gpt-4o"
                     ([greeting] ++ [user_message "What is a Form D?"])] |}).
Proof.
  apply (chat_error_keeps_the_question app_chat_down (asks "sk-test")
           session_new [] "What is a Form D?").
  - reflexivity.
  - discriminate.
  - discriminate.
  - reflexivity.
Defined.

Lemma chat_history_only_grows_witness :
  exists added,
    Some [greeting; user_message "What is a Form D?";
          assistant_message "A notice of an exempt offering of securities."]
    = Some (history session_new ++ added)
    /\ (length added <= 2)%nat
    /\ (prompt (asks "sk-test") = None -> added = []).
Proof.
  eapply (chat_history_only_grows app_ok (asks "sk-test")
            {| session := session_new; log := [] |} (Done tt)
            {| session :=
                 {| chatbot_messages :=
                      Some [greeting; user_message "What is a Form D?";
                            assistant_message
                              "A notice of an exempt offering of securities."];
                    filing_results := Some None |};
               log := _ |}).
  vm_compute. reflexivity.
Defined.

Lemma empty_query_keeps_stored_results_witness :
  run_app (main app_503 presses) {| session := session_with_table; log := [] |}
  = (Done tt,
     {| session := {| chatbot_messages := Some [greeting];
                      filing_results := Some (Some [record_full]) |};
        log := ([] ++ [Title "Daily Form D Filings"; Markdown center_css])
               ++ List.map Pipe
                    [EvGet URL (search_params "2024-01-01" "2024-01-31");
                     EvError "Request failed: 503 Server Error: Service Unavailable for url: https://efts.sec.gov/LATEST/search-index"]
               ++ [Pipe (EvWrite "No filings found or an error occurred.")] |}).
Proof.
  apply (empty_query_keeps_stored_results app_503 presses session_with_table []
           None).
  - reflexivity.
  - vm_compute. reflexivity.
  - left. reflexivity.
Defined.

Lemma query_result_is_stored_and_shown_witness :
  run_app (main app_ok presses) {| session := session_new; log := [] |}
  = (Done tt,
     {| session := {| chatbot_messages := None;
                      filing_results := Some (Some [record_full]) |};
        log := ([] ++ [Title "Daily Form D Filings"; Markdown center_css])
               ++ List.map Pipe
                    [EvGet URL (search_params "2024-01-01" "2024-01-31");
                     EvGet (detail_url_of hit_1234567) []]
               ++ [Pipe (EvWriteTable [record_full])] |}).
Proof.
  apply (query_result_is_stored_and_shown app_ok presses session_new []).
  - reflexivity.
  - vm_compute. reflexivity.
Defined.

Lemma rerun_shows_stored_results_witness :
  run_app (main app_ok idles) {| session := session_with_table; log := [] |}
  = (Done tt,
     {| session := session_with_table;
        log := [] ++ [Title "Daily Form D Filings"; Markdown center_css;
                      Pipe (EvWriteTable [record_full])] |}).
Proof.
  apply rerun_shows_stored_results; reflexivity.
Defined.

Lemma old_results_come_back_after_a_failure_witness :
  exists st1,
    run_app (main app_503 presses) {| session := session_with_table; log := [] |}
    = (Done tt, st1)
    /\ session st1 = session_with_table
    /\ run_app (main app_503 idles) st1
       = (Done tt,
          {| session := session_with_table;
             log := log st1 ++ [Title "Daily Form D Filings"; Markdown center_css;
                                Pipe (EvWriteTable [record_full])] |}).
Proof.
  apply (old_results_come_back_after_a_failure app_503 presses idles
           session_with_table [] [record_full] None
           [EvGet URL (search_params "2024-01-01" "2024-01-31");
            EvError "Request failed: 503 Server Error: Service Unavailable for url: https://efts.sec.gov/LATEST/search-index"]).
  - reflexivity.
  - reflexivity.
  - vm_compute. reflexivity.
  - left. reflexivity.
  - reflexivity.
Defined.

Lemma pipeline_exception_ends_the_run_witness :
  run_app (main app_unticked presses)
          {| session := session_with_table; log := [] |}
  = (Crashed (PyError UnboundLocalError),
     {| session := {| chatbot_messages := Some [greeting];
                      filing_results := Some (Some [record_full]) |};
        log := ([] ++ [Title "Daily Form D Filings"; Markdown center_css])
               ++ List.map Pipe
                    [EvGet URL (search_params "2024-01-01" "2024-01-31");
                     EvGet (detail_url_of hit_1234567) []] |}).
Proof.
  apply (pipeline_exception_ends_the_run app_unticked presses
           session_with_table []).
  - reflexivity.
  - vm_compute. reflexivity.
Defined.

End AppWitnesses.
